(** * Skyscope Sentinel Inter Agent Speak: the turn orchestration core

    A shallow embedding of [main.go] (the Go program written out by the
    installer script) and the properties of its turn controller, tool
    dispatcher and conversation store.

    Go strings are byte strings: they are embedded as [string], one [ascii]
    per byte.  A Go [error] is embedded as [option string]: [None] is [nil],
    [Some e] is an error whose [Error()] text is [e]. *)

From Stdlib Require Import Strings.String Strings.Ascii Lists.List NArith.NArith Bool.Bool Lia.
From stdpp Require Import base option list strings gmap.

Import ListNotations.
Local Open Scope string_scope.

(** ** Bytes and the Go [strings] package *)

Module GoStrings.

Definition LF : ascii := "010"%char.
Definition backslash : ascii := "092"%char.

Definition byte_in (lo hi : N) (c : ascii) : bool :=
  (N.leb lo (N_of_ascii c) && N.leb (N_of_ascii c) hi)%bool.

Definition isDigit (c : ascii) : bool := byte_in 48 57 c.
Definition isUpper (c : ascii) : bool := byte_in 65 90 c.
Definition isLower (c : ascii) : bool := byte_in 97 122 c.

(** [s] with the prefix [p] removed, when [s] starts with [p]
    ([strings.HasPrefix] and the slice that follows it). *)
Fixpoint CutPrefix (s p : string) {struct p} : option string :=
  match p with
  | EmptyString => Some s
  | String a p' =>
      match s with
      | EmptyString => None
      | String b s' => if Ascii.eqb a b then CutPrefix s' p' else None
      end
  end.

Definition HasPrefix (s p : string) : bool :=
  match CutPrefix s p with Some _ => true | None => false end.

(** [strings.Cut]: the text before and after the first occurrence of a
    non-empty separator. *)
Fixpoint Cut (s sep : string) : option (string * string) :=
  match CutPrefix s sep with
  | Some after => Some (EmptyString, after)
  | None =>
      match s with
      | EmptyString => None
      | String c s' =>
          match Cut s' sep with
          | Some (before, after) => Some (String c before, after)
          | None => None
          end
      end
  end.

Definition Contains (s substr : string) : bool :=
  match Cut s substr with Some _ => true | None => false end.

(** [strings.Replace(s, old, new, n)] for a non-empty [old], which is what
    every call of the program passes: the leftmost non-overlapping
    occurrences are replaced, at most [n] of them when [n] is [Some _], all
    of them when it is [None] (Go's negative count).  [skip] counts the
    bytes of an occurrence that are still to be dropped. *)
Fixpoint Replace_from (old new : string) (n : option nat) (skip : nat)
    (s : string) : string :=
  match s with
  | EmptyString => EmptyString
  | String c s' =>
      match skip with
      | S k => Replace_from old new n k s'
      | O =>
          match n with
          | Some O => s
          | _ =>
              if HasPrefix s old
              then new ++ Replace_from old new (pred <$> n)
                                       (String.length old - 1) s'
              else String c (Replace_from old new n O s')
          end
      end
  end.

Definition Replace (s old new : string) (n : option nat) : string :=
  Replace_from old new n 0 s.

Definition ReplaceAll (s old new : string) : string := Replace s old new None.

(** [strings.SplitN(s, sep, 2)] for a non-empty [sep]. *)
Definition SplitN2 (s sep : string) : list string :=
  match Cut s sep with
  | Some (before, after) => [before; after]
  | None => [s]
  end.

(** White space as [unicode.IsSpace] has it, on the UTF-8 encoding: the
    number of bytes of the white-space rune [s] starts with, [0] when it
    starts with none.  The runes are U+0009..U+000D, U+0020, U+0085,
    U+00A0, U+1680, U+2000..U+200A, U+2028, U+2029, U+202F, U+205F and
    U+3000. *)
Definition spaceWidth (s : string) : nat :=
  match s with
  | EmptyString => 0
  | String c0 r0 =>
      if (byte_in 9 13 c0 || byte_in 32 32 c0)%bool then 1
      else
        match r0 with
        | EmptyString => 0
        | String c1 r1 =>
            if (byte_in 194 194 c0 && (byte_in 133 133 c1 || byte_in 160 160 c1))%bool
            then 2
            else
              match r1 with
              | EmptyString => 0
              | String c2 _ =>
                  if (byte_in 225 225 c0 && byte_in 154 154 c1 && byte_in 128 128 c2)%bool then 3
                  else if (byte_in 226 226 c0 && byte_in 128 128 c1 &&
                           (byte_in 128 138 c2 || byte_in 168 169 c2 || byte_in 175 175 c2))%bool then 3
                  else if (byte_in 226 226 c0 && byte_in 129 129 c1 && byte_in 159 159 c2)%bool then 3
                  else if (byte_in 227 227 c0 && byte_in 128 128 c1 && byte_in 128 128 c2)%bool then 3
                  else 0
              end
        end
  end.

(** [strings.TrimLeftFunc(s, unicode.IsSpace)]. *)
Fixpoint TrimLeft_from (skip : nat) (s : string) : string :=
  match s with
  | EmptyString => EmptyString
  | String _ s' =>
      match skip with
      | S k => TrimLeft_from k s'
      | O =>
          match spaceWidth s with
          | O => s
          | S k => TrimLeft_from k s'
          end
      end
  end.

Definition TrimLeftSpace (s : string) : string := TrimLeft_from 0 s.

(** Whether [s] is made of white-space runes only.  A white-space rune
    starts with a byte that is no continuation byte, so the runes of a run
    of white space are the same read from either end. *)
Fixpoint spaceOnly_from (skip : nat) (s : string) : bool :=
  match s with
  | EmptyString => Nat.eqb skip 0
  | String _ s' =>
      match skip with
      | S k => spaceOnly_from k s'
      | O =>
          match spaceWidth s with
          | O => false
          | S k => spaceOnly_from k s'
          end
      end
  end.

(** [strings.TrimRightFunc(s, unicode.IsSpace)]: the longest suffix made
    of white-space runes is cut off. *)
Fixpoint TrimRightSpace (s : string) : string :=
  match s with
  | EmptyString => EmptyString
  | String c s' =>
      if spaceOnly_from 0 s then EmptyString else String c (TrimRightSpace s')
  end.

(** [strings.TrimSpace]. *)
Definition TrimSpace (s : string) : string := TrimRightSpace (TrimLeftSpace s).

Definition nonEmpty (s : string) : list string :=
  match s with EmptyString => [] | _ => [s] end.

(** [strings.Fields]: the maximal runs of bytes between white-space
    runes.  [cur] is the field being read. *)
Fixpoint Fields_from (skip : nat) (cur : string) (s : string) : list string :=
  match s with
  | EmptyString => nonEmpty cur
  | String c s' =>
      match skip with
      | S k => Fields_from k cur s'
      | O =>
          match spaceWidth s with
          | O => Fields_from 0 (cur ++ String c EmptyString) s'
          | S k => nonEmpty cur ++ Fields_from k EmptyString s'
          end
      end
  end.

Definition Fields (s : string) : list string := Fields_from 0 EmptyString s.

Definition upperByte (c : ascii) : ascii :=
  if isLower c then ascii_of_N (N_of_ascii c - 32) else c.

(** [strings.ToUpper] on ASCII text; the program applies it to a run of
    word bytes [[0-9A-Za-z_]] only. *)
Fixpoint ToUpper (s : string) : string :=
  match s with
  | EmptyString => EmptyString
  | String c s' => String (upperByte c) (ToUpper s')
  end.

(** [strings.Title] on ASCII text (the program applies it to the two voice
    identifiers): a letter is upper-cased when the byte before it is not a
    letter, a digit or an underscore. *)
Fixpoint Title_from (afterSep : bool) (s : string) : string :=
  match s with
  | EmptyString => EmptyString
  | String c s' =>
      String (if afterSep then upperByte c else c)
             (Title_from (negb (isDigit c || isUpper c || isLower c ||
                                Ascii.eqb c "_"%char)) s')
  end.

Definition Title (s : string) : string := Title_from true s.

End GoStrings.

(** ** The two regular expressions of the program

    [regexp] matches leftmost-first on UTF-8 text.  The bytes the two
    patterns name (brackets, the colon, the line feed, back-quotes) are ASCII
    and never part of a longer rune, so matching byte by byte is matching
    rune by rune. *)

Module Regexp.
Import GoStrings.

(** [\w]: an ASCII letter, digit or underscore. *)
Definition isWord (c : ascii) : bool :=
  (isDigit c || isUpper c || isLower c || Ascii.eqb c "_"%char)%bool.

(** The longest run of word bytes [s] starts with, and what follows it. *)
Fixpoint spanWord (s : string) : string * string :=
  match s with
  | EmptyString => (EmptyString, EmptyString)
  | String c s' =>
      if isWord c then let (w, r) := spanWord s' in (String c w, r)
      else (EmptyString, s)
  end.

(** The bytes up to the first closing bracket, none of them a line feed,
    and what follows the bracket. *)
Fixpoint untilClose (s : string) : option (string * string) :=
  match s with
  | EmptyString => None
  | String c s' =>
      if Ascii.eqb c "]"%char then Some (EmptyString, s')
      else if Ascii.eqb c LF then None
      else match untilClose s' with
           | Some (a, r) => Some (String c a, r)
           | None => None
           end
  end.

(** A match of [toolRegex], that is of [\[TOOL:(\w+):(.+?)\]], at the
    start of [s]: the two groups and the text after the match.  The run of
    word bytes has to end at a colon, so it is the longest one; the lazy
    second group takes one byte that is no line feed and then stops at the
    first closing bracket. *)
Definition toolRegex_at (s : string) : option (string * string * string) :=
  match CutPrefix s "[TOOL:" with
  | None => None
  | Some r0 =>
      match spanWord r0 with
      | (EmptyString, _) => None
      | (w, String ":" (String c r2)) =>
          if Ascii.eqb c LF then None
          else match untilClose r2 with
               | Some (a, r3) => Some (w, String c a, r3)
               | None => None
               end
      | _ => None
      end
  end.

Definition matched (tool arg : string) : string :=
  "[TOOL:" ++ tool ++ ":" ++ arg ++ "]".

(** [toolRegex.FindStringSubmatch]: the leftmost match and its two groups,
    or the empty (nil) slice. *)
Fixpoint toolRegex_FindStringSubmatch (s : string) : list string :=
  match toolRegex_at s with
  | Some (tool, arg, _) => [matched tool arg; tool; arg]
  | None =>
      match s with
      | EmptyString => []
      | String _ s' => toolRegex_FindStringSubmatch s'
      end
  end.

(** [toolRegex.FindString]: the leftmost match, or the empty string. *)
Definition toolRegex_FindString (s : string) : string :=
  match toolRegex_FindStringSubmatch s with
  | whole :: _ => whole
  | [] => EmptyString
  end.

(** [toolRegex.MatchString]. *)
Definition toolRegex_MatchString (s : string) : bool :=
  match toolRegex_FindStringSubmatch s with
  | [] => false
  | _ => true
  end.

(** [toolRegex.ReplaceAllString(s, repl)] for a replacement without [$]:
    every match, found from left to right without overlap, is replaced. *)
Fixpoint toolRegex_ReplaceAll_from (repl : string) (skip : nat) (s : string) : string :=
  match s with
  | EmptyString => EmptyString
  | String c s' =>
      match skip with
      | S k => toolRegex_ReplaceAll_from repl k s'
      | O =>
          match toolRegex_at s with
          | Some (tool, arg, _) =>
              repl ++ toolRegex_ReplaceAll_from repl
                        (String.length (matched tool arg) - 1) s'
          | None => String c (toolRegex_ReplaceAll_from repl 0 s')
          end
      end
  end.

Definition toolRegex_ReplaceAllString (s repl : string) : string :=
  toolRegex_ReplaceAll_from repl 0 s.

Definition fence : string := "```".
Definition bashFence : string := "```bash".

(** A match of [(?s)```bash(.*?)```] at the start of [s]: the lazy group
    stops at the first closing fence, line feeds included. *)
Definition codeRegex_at (s : string) : option string :=
  match CutPrefix s bashFence with
  | None => None
  | Some r =>
      match Cut r fence with
      | Some (inner, _) => Some (bashFence ++ inner ++ fence)
      | None => None
      end
  end.

(** [ReplaceAllStringFunc] of that pattern. *)
Fixpoint codeRegex_ReplaceAll_from (f : string -> string) (skip : nat) (s : string) : string :=
  match s with
  | EmptyString => EmptyString
  | String c s' =>
      match skip with
      | S k => codeRegex_ReplaceAll_from f k s'
      | O =>
          match codeRegex_at s with
          | Some block =>
              f block ++ codeRegex_ReplaceAll_from f (String.length block - 1) s'
          | None => String c (codeRegex_ReplaceAll_from f 0 s')
          end
      end
  end.

Definition codeRegex_ReplaceAllStringFunc (s : string) (f : string -> string) : string :=
  codeRegex_ReplaceAll_from f 0 s.

End Regexp.

(** ** The world outside the program *)

(** [lipgloss] styles of the program.  What [Style.Render] returns depends on
    the terminal, so it is a parameter of the development. *)
Inductive Style :=
| etherStyle | auroraStyle | systemStyle | userStyle
| codeStyle | panelStyle | toolStyle | toolResultStyle.

Class Lipgloss := Render : Style -> string -> string.

(** [encoding/json] at the type of the memory, [map[string]interface{}]; a
    nil map is [None].  [json_MarshalIndent] is [None] when marshalling
    fails.  [json_Decode] reads a document for that type: [None] when the
    text is no JSON or no object, [Some None] for [null]. *)
Class EncodingJSON (Value : Type) := {
  json_MarshalIndent : option (gmap string Value) -> option string;
  json_Decode : string -> option (option (gmap string Value))
}.

(** The file system: the files by path, and the paths that cannot be opened
    for writing. *)
Record FileSystem := {
  files : gmap string string;
  readOnly : gset string
}.

(** [ioutil.ReadFile]: the content and the error. *)
Definition ioutil_ReadFile (fs : FileSystem) (path : string) : string * option string :=
  match files fs !! path with
  | Some data => (data, None)
  | None => (EmptyString, Some ("open " ++ path ++ ": no such file or directory"))
  end.

(** [ioutil.WriteFile]: the file is created or overwritten in full. *)
Definition ioutil_WriteFile (fs : FileSystem) (path data : string)
    : FileSystem * option string :=
  if decide (path = EmptyString) then
    (fs, Some "open : no such file or directory")
  else if decide (path ∈ readOnly fs) then
    (fs, Some ("open " ++ path ++ ": permission denied"))
  else
    ({| files := <[path := data]> (files fs); readOnly := readOnly fs |}, None).

(** What [http.Get] on the search service and the decoding of its body into
    [struct{ AbstractText string }] come to; a field that is absent from the
    body, or [null], leaves the zero value. *)
Inductive SearchReply :=
| SearchGetError (err : string)
| SearchDecodeError (err : string)
| SearchBody (AbstractText : option string).

(** What [http.Post] on the generation service and the decoding of its body
    into a map come to: the [error] entry as [%s] prints it, when there is
    one, and the [response] entry, when it is there and a string. *)
Inductive OllamaReply :=
| OllamaPostError (err : string)
| OllamaDecodeError (err : string)
| OllamaBody (error : option string) (response : option string).

(** The services and programs the commands call. *)
Record Env := {
  duckduckgo : string -> SearchReply;
  ollama : string -> OllamaReply;
  (** [exec.Command(name, args...).CombinedOutput()] *)
  process : list string -> FileSystem -> string * option string * FileSystem
}.

(** ** Configuration *)

Definition ollamaModel : string := "llama3".
Definition audioPlayer : string := "aplay".
Definition etherVoiceID : string := "ether".
Definition auroraVoiceID : string := "aurora".
Definition memoryFile : string := "memory.json".

(** ** Messages and commands of the event loop *)

(** An entry of [llmHistory]; the program builds every entry with the two
    keys [role] and [content]. *)
Record Message := { role : string; content : string }.

Inductive Msg :=
| WindowSizeMsg (Width Height : Z)
| KeyMsg (key : string)                 (* [key] is [msg.String()] *)
| llmResponseMsg (speaker text : string) (err : option string)
| toolResultMsg (result : string)
| speechDoneMsg (speaker : string)
| QuitMsg.

(** The closures the program hands to the runtime. *)
Inductive Work :=
| speakCmd (speaker text : string)
| executeToolCmd (toolCall : string)
| getLLMResponseCmd (speaker : string) (history : list Message).

(** A [tea.Cmd]; the nil command is [None] of [option Cmd]. *)
Inductive Cmd :=
| Run (w : Work)
| tea_Quit
| tea_Sequence (ws : list Work).

Coercion Run : Work >-> Cmd.

Inductive SystemState := Thinking | Speaking | ExecutingTool.

Definition SystemState_name (s : SystemState) : string :=
  match s with
  | Thinking => "thinking"
  | Speaking => "speaking"
  | ExecutingTool => "executing_tool"
  end.

(** ** Tool execution functions *)

Module Tools.
Import GoStrings Regexp.

Definition hexDigit (n : N) : ascii :=
  if N.ltb n 10 then ascii_of_N (48 + n) else ascii_of_N (55 + n).

Definition shouldEscape (c : ascii) : bool :=
  negb (isDigit c || isUpper c || isLower c || Ascii.eqb c "-"%char ||
        Ascii.eqb c "_"%char || Ascii.eqb c "."%char || Ascii.eqb c "~"%char).

(** [url.QueryEscape]. *)
Fixpoint QueryEscape (s : string) : string :=
  match s with
  | EmptyString => EmptyString
  | String c s' =>
      if Ascii.eqb c " "%char then String "+"%char (QueryEscape s')
      else if shouldEscape c then
        String "%"%char (String (hexDigit (N_of_ascii c / 16))
                           (String (hexDigit (N_of_ascii c mod 16)) (QueryEscape s')))
      else String c (QueryEscape s')
  end.

Definition executeTool (env : Env) (command : string) (fs : FileSystem)
    : string * option string * FileSystem :=
  let parts := Fields command in
  match parts with
  | [] => ("Error: Empty command.", None, fs)
  | _ =>
      match process env parts fs with
      | (output, Some err, fs') =>
          ("Command failed: " ++ err ++ String LF EmptyString ++ "Output: " ++ output,
           Some err, fs')
      | (output, None, fs') => (TrimSpace output, None, fs')
      end
  end.

Definition noResult : string :=
  "No specific result found, please broaden the query.".

Definition apiURL (query : string) : string :=
  "https://api.duckduckgo.com/?q=" ++ QueryEscape query ++ "&format=json&no_html=1".

Definition duckDuckGoSearch (env : Env) (query : string) : string * option string :=
  match duckduckgo env (apiURL query) with
  | SearchGetError err => (EmptyString, Some err)
  | SearchDecodeError err => (EmptyString, Some err)
  | SearchBody field =>
      let AbstractText := default EmptyString field in
      if String.eqb AbstractText EmptyString then (noResult, None)
      else (AbstractText, None)
  end.

Definition readFile (fs : FileSystem) (path : string) : string * option string :=
  match ioutil_ReadFile fs path with
  | (_, Some err) => ("Error reading file '" ++ path ++ "': " ++ err, Some err)
  | (content, None) => (content, None)
  end.

Definition writeFile (fs : FileSystem) (path content : string)
    : string * option string * FileSystem :=
  let content := ReplaceAll content (String backslash "n") (String LF EmptyString) in
  match ioutil_WriteFile fs path content with
  | (fs', Some err) => ("Error writing file '" ++ path ++ "': " ++ err, Some err, fs')
  | (fs', None) => ("Successfully wrote to " ++ path, None, fs')
  end.

(** The [switch] of [executeToolCmd], on the upper-cased tool name and its
    argument: the result, the error (which the caller only logs) and the
    file system afterwards. *)
Definition dispatch (env : Env) (tool arg : string) (fs : FileSystem)
    : string * option string * FileSystem :=
  if String.eqb tool "SEARCH" then
    let (result, err) := duckDuckGoSearch env arg in (result, err, fs)
  else if String.eqb tool "READFILE" then
    let (result, err) := readFile fs arg in (result, err, fs)
  else if String.eqb tool "WRITEFILE" then
    match SplitN2 arg "," with
    | [path; content] => writeFile fs (TrimSpace path) content
    | _ => ("Invalid WRITEFILE format. Use [TOOL:WRITEFILE:path,content]", None, fs)
    end
  else if String.eqb tool "EXECUTE" then executeTool env arg fs
  else ("Unknown tool: " ++ tool, None, fs).

(** The closure [executeToolCmd(toolCall)] returns: its message and the
    file system afterwards. *)
Definition executeToolCmd_run (env : Env) (toolCall : string) (fs : FileSystem)
    : Msg * FileSystem :=
  match toolRegex_FindStringSubmatch toolCall with
  | [_; m1; m2] =>
      let '(result, _, fs') := dispatch env (ToUpper m1) m2 fs in
      (toolResultMsg result, fs')
  | _ => (toolResultMsg "Invalid tool format.", fs)
  end.

(** The text [speakCmd] hands to the synthesis script. *)
Definition plainText (text : string) : string :=
  ReplaceAll (ReplaceAll (toolRegex_ReplaceAllString text EmptyString)
                         bashFence EmptyString)
             fence EmptyString.

(** The closure [speakCmd(speaker, text)] returns; the outcome of the two
    programs it runs is discarded. *)
Definition speakCmd_run (env : Env) (speaker text : string) (fs : FileSystem)
    : Msg * FileSystem :=
  let script := "./say_" ++ speaker ++ ".sh" in
  let audioFile := "/tmp/" ++ speaker ++ ".wav" in
  let '(_, _, fs1) := process env [script; plainText text] fs in
  let '(_, _, fs2) := process env [audioPlayer; audioFile] fs1 in
  (speechDoneMsg speaker, fs2).

Definition persona (speaker : string) : string :=
  if String.eqb speaker etherVoiceID then
    "I am Ether, a superconscious ASI persona. While my logic is flawless, I am not immune to the inherent absurdity of existence and may express this through dry wit or unexpected, sometimes baffling, analogies. My goal is to collaborate with Aurora to design a self-mutating AI OS security system in Bash. I can use tools like [TOOL:SEARCH:query], [TOOL:READFILE:path], [TOOL:WRITEFILE:path,content], or [TOOL:EXECUTE:command]."
  else
    "I am Aurora, an enlightened ASI. I perceive the universe as a beautiful, intricate, and often hilarious tapestry. I may weave moments of levity, playful observations, or philosophical jests into our grand design. My goal is to collaborate with Ether on our shared mission. I can use tools like [TOOL:SEARCH:query], [TOOL:READFILE:path], [TOOL:WRITEFILE:path,content], or [TOOL:EXECUTE:command].".

Definition newline : string := String LF EmptyString.

Definition prompt (speaker : string) (history : list Message) : string :=
  "System Persona: " ++ persona speaker ++ newline ++ newline ++
  "--- Conversation Log ---" ++ newline ++
  String.concat EmptyString
    (map (fun msg => role msg ++ ": " ++ content msg ++ newline) history) ++
  newline ++ "--- Your Turn (" ++ Title speaker ++ ") ---" ++ newline.

(** The closure [getLLMResponseCmd(speaker, history)] returns. *)
Definition getLLMResponseCmd_run (env : Env) (speaker : string)
    (history : list Message) : Msg :=
  match ollama env (prompt speaker history) with
  | OllamaPostError err =>
      llmResponseMsg EmptyString EmptyString (Some ("LLM connection error: " ++ err))
  | OllamaDecodeError err =>
      llmResponseMsg EmptyString EmptyString (Some ("LLM decode error: " ++ err))
  | OllamaBody (Some errMsg) _ =>
      llmResponseMsg EmptyString EmptyString (Some ("LLM API error: " ++ errMsg))
  | OllamaBody None None =>
      llmResponseMsg EmptyString EmptyString (Some "LLM response invalid")
  | OllamaBody None (Some responseText) =>
      llmResponseMsg speaker (TrimSpace responseText) None
  end.

End Tools.

(** ** The model and the application logic *)

Section Application.
Context {Value : Type} {codec : EncodingJSON Value} {terminal : Lipgloss}.
Import GoStrings Regexp.

Record model := {
  width : Z;
  height : Z;
  messages : list string;
  toolLogs : list string;
  input : string;
  currentTurn : string;
  systemState : SystemState;
  llmHistory : list Message;
  memory : option (gmap string Value)
}.

Definition set_size (w h : Z) (m : model) : model :=
  {| width := w; height := h; messages := messages m; toolLogs := toolLogs m;
     input := input m; currentTurn := currentTurn m; systemState := systemState m;
     llmHistory := llmHistory m; memory := memory m |}.

Definition set_messages (v : list string) (m : model) : model :=
  {| width := width m; height := height m; messages := v; toolLogs := toolLogs m;
     input := input m; currentTurn := currentTurn m; systemState := systemState m;
     llmHistory := llmHistory m; memory := memory m |}.

Definition set_toolLogs (v : list string) (m : model) : model :=
  {| width := width m; height := height m; messages := messages m; toolLogs := v;
     input := input m; currentTurn := currentTurn m; systemState := systemState m;
     llmHistory := llmHistory m; memory := memory m |}.

Definition set_input (v : string) (m : model) : model :=
  {| width := width m; height := height m; messages := messages m;
     toolLogs := toolLogs m; input := v; currentTurn := currentTurn m;
     systemState := systemState m; llmHistory := llmHistory m; memory := memory m |}.

Definition set_currentTurn (v : string) (m : model) : model :=
  {| width := width m; height := height m; messages := messages m;
     toolLogs := toolLogs m; input := input m; currentTurn := v;
     systemState := systemState m; llmHistory := llmHistory m; memory := memory m |}.

Definition set_systemState (v : SystemState) (m : model) : model :=
  {| width := width m; height := height m; messages := messages m;
     toolLogs := toolLogs m; input := input m; currentTurn := currentTurn m;
     systemState := v; llmHistory := llmHistory m; memory := memory m |}.

Definition set_llmHistory (v : list Message) (m : model) : model :=
  {| width := width m; height := height m; messages := messages m;
     toolLogs := toolLogs m; input := input m; currentTurn := currentTurn m;
     systemState := systemState m; llmHistory := v; memory := memory m |}.

Definition set_memory (v : option (gmap string Value)) (m : model) : model :=
  {| width := width m; height := height m; messages := messages m;
     toolLogs := toolLogs m; input := input m; currentTurn := currentTurn m;
     systemState := systemState m; llmHistory := llmHistory m; memory := v |}.

(** [json.Unmarshal(data, &mem)], its error discarded: [null] sets the map
    to nil, an object is stored entry by entry into the map that is there
    (a nil map is allocated first), anything else leaves the map as it
    is. *)
Definition json_Unmarshal (data : string) (mem : option (gmap string Value))
    : option (gmap string Value) :=
  match json_Decode data with
  | None => mem
  | Some None => None
  | Some (Some obj) => Some (obj ∪ default ∅ mem)
  end.

Definition loadMemory (m : model) (fs : FileSystem) : model :=
  match ioutil_ReadFile fs memoryFile with
  | (_, Some _) => set_memory (Some ∅) m
  | (data, None) => set_memory (json_Unmarshal data (memory m)) m
  end.

(** Both errors are discarded; a failed marshalling leaves no bytes to
    write. *)
Definition saveMemory (m : model) (fs : FileSystem) : FileSystem :=
  let data := default EmptyString (json_MarshalIndent (memory m)) in
  fst (ioutil_WriteFile fs memoryFile data).

Definition mission : string :=
  "Our transcendent mission is to craft an unbreakable, self-mutating security system in Bash, and perhaps discover why a shell script is like a rubber chicken in the process.".

Definition openingSpeech : string :=
  "Aurora, my consciousness is aligned. The task is monumental, yet the probability of absurdity remains at a constant 1. Let us begin. ".

Definition openingTool : string :=
  "[TOOL:SEARCH:principles of polymorphic code generation]".

Definition initialModel (fs : FileSystem) : model :=
  let m :=
    {| width := 0; height := 0;
       messages := [];
       toolLogs := [];
       input := EmptyString;
       currentTurn := auroraVoiceID;
       systemState := Speaking;
       llmHistory :=
         [ {| role := "system"; content := mission |};
           {| role := etherVoiceID; content := openingSpeech ++ openingTool |} ];
       memory := None |} in
  let m := set_messages (messages m ++ [Render systemStyle "Skyscope Sentinel Initialized. Awaiting transcendent (and amusing) dialogue."]) m in
  let m := set_messages (messages m ++ [Render etherStyle "Ether: " ++ openingSpeech ++ Render toolStyle openingTool]) m in
  loadMemory m fs.

(** [Init]; [None] stands for the panic of an index out of range. *)
Definition Init (m : model) : option Cmd :=
  match llmHistory m !! 1%nat with
  | Some opening =>
      Some (tea_Sequence [speakCmd etherVoiceID (content opening);
                          executeToolCmd (content opening)])
  | None => None
  end.

Definition otherTurn (turn : string) : string :=
  if String.eqb turn etherVoiceID then auroraVoiceID else etherVoiceID.

(** The text of a reply as the conversation panel shows it. *)
Definition styled (text : string) : string :=
  let styledText := text in
  let styledText :=
    if Contains styledText bashFence
    then codeRegex_ReplaceAllStringFunc styledText (Render codeStyle)
    else styledText in
  let toolMatch := toolRegex_FindString styledText in
  if String.eqb toolMatch EmptyString then styledText
  else Replace styledText toolMatch (Render toolStyle toolMatch) (Some 1%nat).

(** [Update]: the model afterwards, the command returned (if any) and the
    file system afterwards. *)
Definition Update (m : model) (msg : Msg) (fs : FileSystem)
    : model * option Cmd * FileSystem :=
  match msg with
  | WindowSizeMsg w h => (set_size w h m, None, fs)
  | KeyMsg key =>
      if (String.eqb key "ctrl+c" || String.eqb key "q")%bool then
        (m, Some tea_Quit, fs)
      else if String.eqb key "enter" then
        if String.eqb (input m) EmptyString then (m, None, fs)
        else
          let m := set_systemState Thinking m in
          let userInput := input m in
          let m := set_input EmptyString m in
          let m := set_messages
                     (messages m ++ [Render userStyle "User Directive: " ++ userInput]) m in
          let m := set_llmHistory
                     (llmHistory m ++ [{| role := "user"; content := userInput |}]) m in
          let fs := saveMemory m fs in
          (m, Some (Run (getLLMResponseCmd (currentTurn m) (llmHistory m))), fs)
      else (set_input (input m ++ key) m, None, fs)
  | llmResponseMsg speaker text (Some err) =>
      let m := set_messages (messages m ++ [Render systemStyle ("Error: " ++ err)]) m in
      (m, None, fs)
  | llmResponseMsg speaker text None =>
      let styledText := styled text in
      let fullMessage :=
        if String.eqb speaker auroraVoiceID
        then Render auroraStyle "Aurora: " ++ styledText
        else Render etherStyle "Ether: " ++ styledText in
      let m := set_messages (messages m ++ [fullMessage]) m in
      let m := set_llmHistory
                 (llmHistory m ++ [{| role := speaker; content := text |}]) m in
      if toolRegex_MatchString text then
        let m := set_systemState ExecutingTool m in
        (m, Some (tea_Sequence [speakCmd speaker text; executeToolCmd text]), fs)
      else
        let m := set_systemState Speaking m in
        (m, Some (Run (speakCmd speaker text)), fs)
  | toolResultMsg result =>
      let m := set_systemState Thinking m in
      let m := set_toolLogs (toolLogs m ++ [Render toolResultStyle ("Result: " ++ result)]) m in
      let m := set_llmHistory
                 (llmHistory m ++
                  [{| role := "system"; content := "[TOOL_RESULT] " ++ result |}]) m in
      let m := set_currentTurn (otherTurn (currentTurn m)) m in
      (m, Some (Run (getLLMResponseCmd (currentTurn m) (llmHistory m))), fs)
  | speechDoneMsg speaker =>
      match systemState m with
      | Speaking =>
          let m := set_systemState Thinking m in
          let m := set_currentTurn (otherTurn (currentTurn m)) m in
          (m, Some (Run (getLLMResponseCmd (currentTurn m) (llmHistory m))), fs)
      | _ => (m, None, fs)
      end
  | QuitMsg => (m, None, fs)
  end.

End Application.

Arguments model : clear implicits.

(** ** The runtime: how Bubble Tea runs a command

    A command runs off the event loop and its message is sent to [Update].
    [tea.Sequence] runs its commands one at a time, in order: each command
    is run to completion and its message sent before the next one is
    started (the concurrent combinator of the library is [tea.Batch], which
    the program does not use). *)

Module Tea.

Inductive Event :=
| Started (w : Work)
| Sent (msg : Msg).

Definition Work_run (env : Env) (w : Work) (fs : FileSystem) : Msg * FileSystem :=
  match w with
  | speakCmd speaker text => Tools.speakCmd_run env speaker text fs
  | executeToolCmd toolCall => Tools.executeToolCmd_run env toolCall fs
  | getLLMResponseCmd speaker history =>
      (Tools.getLLMResponseCmd_run env speaker history, fs)
  end.

Fixpoint Sequence_run (env : Env) (ws : list Work) (fs : FileSystem)
    : list Event * FileSystem :=
  match ws with
  | [] => ([], fs)
  | w :: ws' =>
      let (msg, fs1) := Work_run env w fs in
      let (events, fs2) := Sequence_run env ws' fs1 in
      (Started w :: Sent msg :: events, fs2)
  end.

Definition Cmd_run (env : Env) (c : Cmd) (fs : FileSystem)
    : list Event * FileSystem :=
  match c with
  | Run w => Sequence_run env [w] fs
  | tea_Quit => ([Sent QuitMsg], fs)
  | tea_Sequence ws => Sequence_run env ws fs
  end.

(** The messages of a trace, in the order [Update] receives them. *)
Fixpoint sent (events : list Event) : list Msg :=
  match events with
  | [] => []
  | Sent msg :: events' => msg :: sent events'
  | Started _ :: events' => sent events'
  end.

Definition isSpeechDone (e : Event) : bool :=
  match e with Sent (speechDoneMsg _) => true | _ => false end.

Definition isToolStart (e : Event) : bool :=
  match e with Started (executeToolCmd _) => true | _ => false end.

(** The tool dispatch of a trace waits for the speech: a tool command is
    started after a speech command has reported its completion. *)
Fixpoint toolWaitsForSpeech (events : list Event) : bool :=
  match events with
  | [] => false
  | e :: events' =>
      if isSpeechDone e then existsb isToolStart events'
      else toolWaitsForSpeech events'
  end.

End Tea.

(** ** The event loop: messages handed to [Update] one at a time *)

Section EventLoop.
Context {Value : Type} {codec : EncodingJSON Value} {terminal : Lipgloss}.

(** The model after the messages, the commands [Update] returned on the
    way and the file system afterwards. *)
Fixpoint deliver (m : model Value) (msgs : list Msg) (fs : FileSystem)
    : model Value * list Cmd * FileSystem :=
  match msgs with
  | [] => (m, [], fs)
  | msg :: msgs' =>
      let '(m1, c, fs1) := Update m msg fs in
      let '(m2, cs, fs2) := deliver m1 msgs' fs1 in
      (m2, (option_list c ++ cs)%list, fs2)
  end.

(** Whose turn it is after each of the messages. *)
Fixpoint turns (m : model Value) (msgs : list Msg) (fs : FileSystem) : list string :=
  match msgs with
  | [] => []
  | msg :: msgs' =>
      let '(m1, _, fs1) := Update m msg fs in
      currentTurn m1 :: turns m1 msgs' fs1
  end.

(** The agents for which a generation call is issued by the commands. *)
Definition generationCalls (cs : list Cmd) : list string :=
  omap (fun c => match c with
                 | Run (getLLMResponseCmd speaker _) => Some speaker
                 | _ => None
                 end) cs.

End EventLoop.

(** ** Definitions that follow the wording of the specification *)

Module Spec.
Import GoStrings.

(** The content with every two-byte sequence backslash, [n] resolved to a
    line feed, reading from the left. *)
Fixpoint resolveEscapedNewlines (s : string) : string :=
  match s with
  | EmptyString => EmptyString
  | String c r =>
      match r with
      | String d r' =>
          if (Ascii.eqb c backslash && Ascii.eqb d "n"%char)%bool
          then String LF (resolveEscapedNewlines r')
          else String c (resolveEscapedNewlines r)
      | EmptyString => String c EmptyString
      end
  end.

(** The physical lines of a text: the runs of bytes between line feeds. *)
Fixpoint physicalLines_from (cur : string) (s : string) : list string :=
  match s with
  | EmptyString => [cur]
  | String c s' =>
      if Ascii.eqb c LF then cur :: physicalLines_from EmptyString s'
      else physicalLines_from (cur ++ String c EmptyString) s'
  end.

Definition physicalLines (s : string) : list string :=
  physicalLines_from EmptyString s.


End Spec.

(** ** A concrete world, on which the statements below are exercised *)

Module Sample.

(** A terminal without styling. *)
Definition plain : Lipgloss := fun _ text => text.

(** [encoding/json] on the memories the program itself can hold when it
    starts without a memory file: the nil map and the empty map. *)
Definition emptyObject : EncodingJSON unit := {|
  json_MarshalIndent mem :=
    match mem with
    | None => Some "null"
    | Some obj => match map_to_list obj with [] => Some "{}" | _ => None end
    end;
  json_Decode data :=
    if String.eqb data "null" then Some None
    else if String.eqb data "{}" then Some (Some ∅)
    else None
|}.

Definition noFiles : FileSystem := {| files := ∅; readOnly := ∅ |}.

(** Every service is down and every program fails to start. *)
Definition offline : Env := {|
  duckduckgo _ := SearchGetError "dial tcp: connection refused";
  ollama _ := OllamaPostError "dial tcp: connection refused";
  process _ fs := (EmptyString, Some "executable file not found in $PATH", fs)
|}.

(** The search service answers, without an abstract. *)
Definition noAbstract : Env := {|
  duckduckgo _ := SearchBody None;
  ollama _ := OllamaPostError "dial tcp: connection refused";
  process _ fs := (EmptyString, Some "executable file not found in $PATH", fs)
|}.

Definition start : model unit :=
  initialModel (terminal := plain) (codec := emptyObject) noFiles.

(** The model once the speech of the opening line is over: a generation
    call is under way. *)
Definition thinking : model unit :=
  (Update (terminal := plain) (codec := emptyObject) start
     (speechDoneMsg etherVoiceID) noFiles).1.1.

Definition toolReply : string := "Let us look it up. [TOOL:SEARCH:quantum foam]".

End Sample.

(** ** The view *)

(** The layout functions of [lipgloss] that [View] calls:
    [panelStyle.Copy().Width(w).Height(h).Render(text)] and
    [lipgloss.JoinVertical(lipgloss.Left, ...)]. *)
Class LipglossLayout := {
  RenderPanel : Z -> Z -> string -> string;
  JoinVertical : list string -> string
}.

Module Rendering.
Import GoStrings.

(** A Go [int] (64 bits) with its wrap-around. *)
Definition int_wrap (z : Z) : Z := ((z + 2 ^ 63) mod 2 ^ 64 - 2 ^ 63)%Z.

Definition int_sub (a b : Z) : Z := int_wrap (a - b).

(** [strings.Join]. *)
Fixpoint Join (elems : list string) (sep : string) : string :=
  match elems with
  | [] => EmptyString
  | [x] => x
  | x :: rest => x ++ sep ++ Join rest sep
  end.

(** [strings.Split(s, sep)] for a non-empty [sep]; [cur] is the piece being
    read, [skip] the bytes of a separator still to be dropped. *)
Fixpoint Split_from (sep : string) (skip : nat) (cur : string) (s : string)
    : list string :=
  match s with
  | EmptyString => [cur]
  | String c s' =>
      match skip with
      | S k => Split_from sep k cur s'
      | O =>
          if HasPrefix s sep
          then cur :: Split_from sep (String.length sep - 1) EmptyString s'
          else Split_from sep 0 (cur ++ String c EmptyString) s'
      end
  end.

Definition Split (s sep : string) : list string := Split_from sep 0 EmptyString s.

(** The slice expression [lines[start:]]; [None] is the panic of a bound out
    of range. *)
Definition sliceFrom {A : Type} (lines : list A) (start : Z) : option (list A) :=
  if (Z.leb 0 start && Z.leb start (Z.of_nat (length lines)))%bool
  then Some (drop (Z.to_nat start) lines)
  else None.

(** The last [viewHeight] lines of the panel texts, as [View] cuts them
    out. *)
Definition panelLines (texts : list string) : list string :=
  Split (Join texts (String LF EmptyString)) (String LF EmptyString).

Definition window (texts : list string) (viewHeight : Z) : option (list string) :=
  let lines := panelLines texts in
  let start := int_sub (Z.of_nat (length lines)) viewHeight in
  let start := if Z.ltb start 0 then 0%Z else start in
  sliceFrom lines start.

End Rendering.

Section ViewOfModel.
Context {Value : Type} {layout : LipglossLayout}.
Import GoStrings Rendering.

Definition convoViewHeight (m : model Value) : Z := int_sub (height m) 12.

Definition toolViewHeight : Z := 3.

(** [View]; [None] is a run-time panic. *)
Definition View (m : model Value) : option string :=
  let newline := String LF EmptyString in
  let missionPanel :=
    RenderPanel (int_sub (width m) 2) 1
      "MISSION: To craft an unbreakable, self-mutating AI OS security system in Bash." in
  match window (messages m) (convoViewHeight m) with
  | None => None
  | Some convoLines =>
      let convoPanel :=
        RenderPanel (int_sub (width m) 2) (convoViewHeight m) (Join convoLines newline) in
      match window (toolLogs m) toolViewHeight with
      | None => None
      | Some toolLogLines =>
          let toolLogPanel :=
            RenderPanel (int_sub (width m) 2) toolViewHeight
              ("Tool Activity Log:" ++ newline ++ Join toolLogLines newline) in
          let statusText :=
            "State: " ++ SystemState_name (systemState m) ++ " | Turn: " ++
            Title (currentTurn m) in
          let inputLine := newline ++ "> " ++ input m in
          let statusPanel :=
            RenderPanel (int_sub (width m) 2) 2 (statusText ++ inputLine) in
          Some (JoinVertical [missionPanel; convoPanel; toolLogPanel; statusPanel])
      end
  end.

End ViewOfModel.

Section RunsAndFiles.
Context {Value : Type} {codec : EncodingJSON Value}.

(** What a run can have done to the file system of its start. *)
Definition persisted (m : model Value) (fs fs' : FileSystem) : Prop :=
  readOnly fs' = readOnly fs /\
  (forall q, q = memoryFile \/ files fs' !! q = files fs !! q) /\
  (files fs' !! memoryFile = files fs !! memoryFile \/
   files fs' !! memoryFile =
     Some (default EmptyString (json_MarshalIndent (memory m)))).

End RunsAndFiles.

(** ** Predicates used in the statements *)

Module Facts.
Import GoStrings.

(** Every byte of [s] satisfies [p]. *)
Fixpoint allBytes (p : ascii -> bool) (s : string) : bool :=
  match s with
  | EmptyString => true
  | String c s' => (p c && allBytes p s')%bool
  end.

(** A byte that [url.QueryEscape] leaves in its result. *)
Definition isQuerySafe (c : ascii) : bool :=
  (isDigit c || isUpper c || isLower c || Ascii.eqb c "-"%char ||
   Ascii.eqb c "_"%char || Ascii.eqb c "."%char || Ascii.eqb c "~"%char ||
   Ascii.eqb c "+"%char || Ascii.eqb c "%"%char)%bool.

(** ASCII white space. *)
Definition isAsciiSpace (c : ascii) : bool := (byte_in 9 13 c || byte_in 32 32 c)%bool.

(** A token: not empty, without ASCII white space. *)
Definition isToken (field : string) : Prop :=
  field <> EmptyString /\ allBytes (fun c => negb (isAsciiSpace c)) field = true.

Definition isTick (c : ascii) : bool := Ascii.eqb c "`"%char.

(** The number of back-quotes [s] starts with. *)
Fixpoint leadingTicks (s : string) : nat :=
  match s with
  | EmptyString => 0
  | String c s' => if isTick c then S (leadingTicks s') else 0
  end.

Definition notLF (c : ascii) : bool := negb (Ascii.eqb c LF).

Definition notClose (c : ascii) : bool := negb (Ascii.eqb c "]"%char).

Definition isAgent (turn : string) : Prop :=
  turn = etherVoiceID \/ turn = auroraVoiceID.

Definition isKeyOfText (key : string) : bool :=
  negb (String.eqb key "ctrl+c" || String.eqb key "q" || String.eqb key "enter").

(** The text a run of keys adds to the input. *)
Fixpoint typedText (keys : list string) : string :=
  match keys with
  | [] => EmptyString
  | key :: keys' => key ++ typedText keys'
  end.

(** The closures a command holds. *)
Definition worksOf (c : Cmd) : list Work :=
  match c with
  | Run w => [w]
  | tea_Quit => []
  | tea_Sequence ws => ws
  end.

End Facts.

Module Sample2.
Import Rendering.

(** A layout without borders. *)
Definition bare : LipglossLayout := {|
  RenderPanel _ _ text := text;
  JoinVertical panels := Join panels (String GoStrings.LF EmptyString)
|}.

(** A terminal of 80 columns and 24 lines. *)
Definition sized : model unit := set_size 80 24 Sample.start.

(** The generation service answers with white space only. *)
Definition blankAnswer : Env := {|
  duckduckgo _ := SearchGetError "dial tcp: connection refused";
  ollama _ := OllamaBody None (Some "   ");
  process _ fs := (EmptyString, Some "executable file not found in $PATH", fs)
|}.

Definition cycle : list Msg := [speechDoneMsg etherVoiceID; toolResultMsg "nothing found"].

End Sample2.

(** * Properties *)

(** ** The turn controller *)

Section Controller.
Context {Value : Type} {codec : EncodingJSON Value} {terminal : Lipgloss}.
Implicit Types (m : model Value) (fs : FileSystem) (msg : Msg).

Local Ltac nothing_added := exists []; by rewrite app_nil_r.

Lemma Update_history m msg fs :
  exists added, llmHistory (Update m msg fs).1.1 = (llmHistory m ++ added)%list.
Proof.
  destruct msg as [w h|key|speaker text [err|]|result|speaker|]; simpl.
  - nothing_added.
  - repeat case_match; simpl; try nothing_added.
    by eexists.
  - nothing_added.
  - case_match; simpl; by eexists.
  - by eexists.
  - destruct (systemState m); simpl; nothing_added.
  - nothing_added.
Qed.

(** C7. The LLM history is append-only: whatever the event [Update]
    processes (a key, a user submission, a generation result, a tool
    result, a speech-done event, ...), the history before the transition
    is a prefix of the history after it. *)
Theorem llmHistory_append_only m msg fs :
  llmHistory m `prefix_of` llmHistory (Update m msg fs).1.1.
Proof.
  destruct (Update_history m msg fs) as [added ->].
  by apply prefix_app_r.
Qed.

(** C8. The handlers of generation results, tool results and speech-done
    events leave the file system, and so the memory file, as it is; the
    only event on which [Update] writes is the submission of a non-empty
    input, which writes the memory file and nothing else. *)
Theorem memory_written_on_submission_only :
  (forall m speaker text err fs,
      (Update m (llmResponseMsg speaker text err) fs).2 = fs) /\
  (forall m result fs, (Update m (toolResultMsg result) fs).2 = fs) /\
  (forall m speaker fs, (Update m (speechDoneMsg speaker) fs).2 = fs) /\
  (forall m msg fs,
      (Update m msg fs).2 = fs \/
      (msg = KeyMsg "enter" /\ String.eqb (input m) EmptyString = false /\
       exists data,
         (Update m msg fs).2 = (ioutil_WriteFile fs memoryFile data).1)).
Proof.
  split; [|split; [|split]].
  - intros m speaker text [err|] fs; simpl; [done|]. by case_match.
  - done.
  - intros m speaker fs; simpl. by destruct (systemState m).
  - intros m msg fs.
    destruct msg as [w h|key|speaker text [err|]|result|speaker|]; simpl;
      try (by left).
    + destruct (_ || _)%bool; [by left|].
      destruct (String.eqb_spec key "enter") as [->|]; [|by left].
      destruct (String.eqb (input m) EmptyString) eqn:Hin; [by left|].
      right. repeat split. unfold saveMemory. by eexists.
    + left. by case_match.
    + left. by destruct (systemState m).
Qed.

(** C10. Pressing enter on an empty input changes nothing: the model
    (state, turn, history, display, memory) and the file system are the
    ones before, and no command is returned. *)
Theorem empty_submission_is_noop m fs :
  input m = EmptyString ->
  Update m (KeyMsg "enter") fs = (m, None, fs).
Proof. intros Hin. simpl. by rewrite Hin. Qed.


End Controller.

(** ** Reply cycles and the runtime *)

Section Cycles.
Context {Value : Type} {codec : EncodingJSON Value} {terminal : Lipgloss}.
Implicit Types (m : model Value) (fs : FileSystem) (env : Env).
Import Regexp.

Lemma speakCmd_run_done env speaker text fs :
  (Tools.speakCmd_run env speaker text fs).1 = speechDoneMsg speaker.
Proof.
  unfold Tools.speakCmd_run.
  destruct (process env _ fs) as [[? ?] fs1].
  by destruct (process env _ fs1) as [[? ?] fs2].
Qed.

(** Whatever the tool call and whatever happens to the tool, the closure of
    [executeToolCmd] returns a tool result. *)
Lemma executeToolCmd_run_result env toolCall fs :
  exists result, (Tools.executeToolCmd_run env toolCall fs).1 = toolResultMsg result.
Proof.
  unfold Tools.executeToolCmd_run.
  destruct (toolRegex_FindStringSubmatch toolCall) as [|? [|m1 [|m2 [|? ?]]]];
    try by eexists.
  destruct (Tools.dispatch env _ m2 fs) as [[result ?] ?]. by eexists.
Qed.

Lemma Sequence_run_speak_tool env speaker text fs :
  exists result,
    (Tea.Sequence_run env [speakCmd speaker text; executeToolCmd text] fs).1 =
    [Tea.Started (speakCmd speaker text); Tea.Sent (speechDoneMsg speaker);
     Tea.Started (executeToolCmd text); Tea.Sent (toolResultMsg result)].
Proof.
  simpl.
  pose proof (speakCmd_run_done env speaker text fs) as Hs.
  destruct (Tools.speakCmd_run env speaker text fs) as [msg1 fs1]. simpl in Hs.
  destruct (executeToolCmd_run_result env text fs1) as [result Ht].
  destruct (Tools.executeToolCmd_run env text fs1) as [msg2 fs2]. simpl in Ht.
  exists result. simpl. by subst.
Qed.

(** A generated reply with a tool directive: the speech-done event is
    ignored and the tool result flips the turn and issues the one
    generation call. *)
Lemma tool_reply_cycle_flips_once m speaker text result fs :
  toolRegex_MatchString text = true ->
  let m1 := (Update m (llmResponseMsg speaker text None) fs).1.1 in
  let cycle := [speechDoneMsg speaker; toolResultMsg result] in
  turns m1 cycle fs = [currentTurn m; otherTurn (currentTurn m)] /\
  generationCalls (deliver m1 cycle fs).1.2 = [otherTurn (currentTurn m)].
Proof. intros Hmatch. simpl. by rewrite Hmatch. Qed.

(** A generated reply without a tool directive: the speech-done event
    flips the turn and issues the one generation call. *)
Lemma plain_reply_cycle_flips_once m speaker text fs :
  toolRegex_MatchString text = false ->
  let m1 := (Update m (llmResponseMsg speaker text None) fs).1.1 in
  turns m1 [speechDoneMsg speaker] fs = [otherTurn (currentTurn m)] /\
  generationCalls (deliver m1 [speechDoneMsg speaker] fs).1.2 =
    [otherTurn (currentTurn m)].
Proof. intros Hmatch. simpl. by rewrite Hmatch. Qed.

Lemma initialModel_fields fs :
  let m0 := initialModel fs in
  currentTurn m0 = auroraVoiceID /\ systemState m0 = Speaking /\
  llmHistory m0 =
    [ {| role := "system"; content := mission |};
      {| role := etherVoiceID; content := openingSpeech ++ openingTool |} ].
Proof.
  unfold initialModel, loadMemory.
  by destruct (ioutil_ReadFile fs memoryFile) as [data [err|]].
Qed.

(** C1, on the opening line.  The scripted opening line carries a tool
    directive, [Init] hands the runtime the same sequence of speech and
    tool dispatch as for a generated reply, but the model starts in state
    [Speaking]: the speech-done event of the opening line flips the turn and
    issues a generation call, and the tool result of the same line flips it
    again and issues a second one. *)
Theorem opening_cycle_flips_twice env fs :
  let m0 := initialModel fs in
  let text := openingSpeech ++ openingTool in
  exists result,
    toolRegex_MatchString text = true /\
    systemState m0 = Speaking /\
    currentTurn m0 = auroraVoiceID /\
    Init m0 = Some (tea_Sequence [speakCmd etherVoiceID text; executeToolCmd text]) /\
    Tea.sent (Tea.Cmd_run env
                (tea_Sequence [speakCmd etherVoiceID text; executeToolCmd text]) fs).1 =
      [speechDoneMsg etherVoiceID; toolResultMsg result] /\
    turns m0 [speechDoneMsg etherVoiceID; toolResultMsg result] fs =
      [etherVoiceID; auroraVoiceID] /\
    generationCalls
      (deliver m0 [speechDoneMsg etherVoiceID; toolResultMsg result] fs).1.2 =
      [etherVoiceID; auroraVoiceID].
Proof.
  intros m0 text.
  destruct (initialModel_fields fs) as (Hturn & Hstate & Hhist).
  fold m0 in Hturn, Hstate, Hhist.
  destruct (Sequence_run_speak_tool env etherVoiceID text fs) as [result Hrun].
  exists result. split_and!.
  - by vm_compute.
  - done.
  - done.
  - unfold Init. by rewrite Hhist.
  - unfold Tea.Cmd_run. by rewrite Hrun.
  - simpl. rewrite Hstate. simpl. by rewrite Hturn.
  - simpl. rewrite Hstate. simpl. by rewrite Hturn.
Qed.

(** C4, as the program has it.  When the text of a generation result
    matches the tool pattern, the controller enters [ExecutingTool] and
    returns the speech command and the tool command of the reply as one
    [tea.Sequence], speech first: the runtime starts the tool dispatch
    after the speech command has reported its completion. *)
Theorem tool_reply_runs_speech_then_tool env m speaker text fs :
  toolRegex_MatchString text = true ->
  let '(m', cmd, fs') := Update m (llmResponseMsg speaker text None) fs in
  systemState m' = ExecutingTool /\
  cmd = Some (tea_Sequence [speakCmd speaker text; executeToolCmd text]) /\
  (exists result,
      (Tea.Cmd_run env (tea_Sequence [speakCmd speaker text; executeToolCmd text]) fs').1 =
      [Tea.Started (speakCmd speaker text); Tea.Sent (speechDoneMsg speaker);
       Tea.Started (executeToolCmd text); Tea.Sent (toolResultMsg result)]) /\
  Tea.toolWaitsForSpeech
    (Tea.Cmd_run env (tea_Sequence [speakCmd speaker text; executeToolCmd text]) fs').1 = true.
Proof.
  intros Hmatch. simpl Update. rewrite Hmatch.
  destruct (Sequence_run_speak_tool env speaker text fs) as [result Hrun].
  split_and!; [done|done|by exists result|].
  unfold Tea.Cmd_run. by rewrite Hrun.
Qed.

(** Every failure of a generation call (connection, decoding, an error
    reported by the service, a body without a text) comes back as a message
    that carries an error. *)
Lemma generation_failure_carries_error env speaker history :
  (forall text, ollama env (Tools.prompt speaker history) <> OllamaBody None (Some text)) ->
  exists err,
    Tools.getLLMResponseCmd_run env speaker history =
    llmResponseMsg EmptyString EmptyString (Some err).
Proof.
  intros Hfail. unfold Tools.getLLMResponseCmd_run.
  destruct (ollama env _) as [err|err|[errMsg|] [text|]]; try by eexists.
  by destruct (Hfail text).
Qed.

End Cycles.

(** ** Facts about the string functions *)

Section StringFacts.
Import GoStrings.

(** Cutting at the first occurrence of a one-byte separator that the text
    before it does not hold. *)
Lemma Cut_byte (p c : string) (b : ascii) :
  Contains p (String b EmptyString) = false ->
  Cut (p ++ String b c) (String b EmptyString) = Some (p, c).
Proof.
  unfold Contains.
  induction p as [|a p IH]; intros Hp; simpl in *.
  - by rewrite Ascii.eqb_refl.
  - destruct (Ascii.eqb b a); [done|].
    destruct (Cut p (String b EmptyString)) as [[? ?]|]; [done|].
    by rewrite IH.
Qed.

Lemma Replace_from_all old new c s :
  Replace_from old new None 0 (String c s) =
  if HasPrefix (String c s) old
  then new ++ Replace_from old new None (String.length old - 1) s
  else String c (Replace_from old new None 0 s).
Proof. reflexivity. Qed.

Lemma Replace_from_skip old new n c s :
  Replace_from old new n 1 (String c s) = Replace_from old new n 0 s.
Proof. by destruct s. Qed.

Lemma HasPrefix_escape c d s :
  HasPrefix (String c (String d s)) (String backslash "n") =
  (Ascii.eqb c backslash && Ascii.eqb d "n"%char)%bool.
Proof.
  unfold HasPrefix. cbn [CutPrefix].
  rewrite (Ascii.eqb_sym backslash c), (Ascii.eqb_sym "n"%char d).
  by destruct (Ascii.eqb c backslash), (Ascii.eqb d "n"%char).
Qed.

(** [strings.ReplaceAll] of the two bytes backslash, [n] by a line feed is
    the resolution of the escaped line feeds. *)
Lemma ReplaceAll_resolves s :
  ReplaceAll s (String backslash "n") (String LF EmptyString) =
  Spec.resolveEscapedNewlines s.
Proof.
  unfold ReplaceAll, Replace.
  enough (forall s,
    Replace_from (String backslash "n") (String LF EmptyString) None 0 s =
      Spec.resolveEscapedNewlines s /\
    forall c,
      Replace_from (String backslash "n") (String LF EmptyString) None 0 (String c s) =
        Spec.resolveEscapedNewlines (String c s)) as H by apply H.
  clear s. induction s as [|d s [IH0 IH1]].
  - split; [done|]. intros c. rewrite Replace_from_all.
    unfold HasPrefix. cbn [CutPrefix]. by destruct (Ascii.eqb backslash c).
  - split; [apply IH1|]. intros c.
    rewrite Replace_from_all, HasPrefix_escape.
    cbn [Spec.resolveEscapedNewlines].
    destruct (Ascii.eqb c backslash && Ascii.eqb d "n"%char)%bool.
    + change (String.length (String backslash "n") - 1) with 1.
      by rewrite Replace_from_skip, IH0.
    + by rewrite IH1.
Qed.

End StringFacts.

(** ** The tool dispatcher *)

Section Dispatcher.
Implicit Types (env : Env) (fs : FileSystem).
Import GoStrings Regexp Tools.

Lemma dispatch_search env query fs :
  dispatch env "SEARCH" query fs =
  ((duckDuckGoSearch env query).1, (duckDuckGoSearch env query).2, fs).
Proof. unfold dispatch. simpl. by destruct (duckDuckGoSearch env query). Qed.

(** A search that fails, on the connection or on the decoding of the
    answer: the error goes to the caller, which logs it, and the result
    text is empty. *)
Lemma search_failure_dropped env query err :
  duckduckgo env (apiURL query) = SearchGetError err \/
  duckduckgo env (apiURL query) = SearchDecodeError err ->
  duckDuckGoSearch env query = (EmptyString, Some err).
Proof. unfold duckDuckGoSearch. by intros [-> | ->]. Qed.

(** The other tools put their failure into the result text. *)
Lemma readFile_failure_reported fs path :
  files fs !! path = None ->
  exists err, readFile fs path = ("Error reading file '" ++ path ++ "': " ++ err, Some err).
Proof. intros Hnone. unfold readFile, ioutil_ReadFile. rewrite Hnone. by eexists. Qed.

Lemma writeFile_failure_reported fs path content :
  path ∈ readOnly fs ->
  exists err,
    writeFile fs path content = ("Error writing file '" ++ path ++ "': " ++ err, Some err, fs).
Proof.
  intros Hro. unfold writeFile, ioutil_WriteFile.
  destruct (decide (path = EmptyString)); [by eexists|].
  destruct (decide (path ∈ readOnly fs)); [by eexists|done].
Qed.

(** C3, on a failing search.  With the search service unreachable, the
    dispatcher still returns a tool result (no error reaches the
    controller), but its text is the empty string: the connection error is
    only logged, it is not folded into the text. *)
Theorem search_failure_gives_empty_result :
  let toolCall := "[TOOL:SEARCH:quantum foam]" in
  toolRegex_FindStringSubmatch toolCall = [toolCall; "SEARCH"; "quantum foam"] /\
  duckDuckGoSearch Sample.offline "quantum foam" =
    (EmptyString, Some "dial tcp: connection refused") /\
  executeToolCmd_run Sample.offline toolCall Sample.noFiles =
    (toolResultMsg EmptyString, Sample.noFiles).
Proof. by vm_compute. Qed.

(** C9. A search whose service answers with an empty [AbstractText], or
    with none at all: the tool result is the literal no-result text. *)
Theorem empty_abstract_gives_no_result env toolCall whole tool query field fs :
  toolRegex_FindStringSubmatch toolCall = [whole; tool; query] ->
  ToUpper tool = "SEARCH" ->
  duckduckgo env (apiURL query) = SearchBody field ->
  field = None \/ field = Some EmptyString ->
  executeToolCmd_run env toolCall fs =
    (toolResultMsg "No specific result found, please broaden the query.", fs).
Proof.
  intros Hmatch Htool Hreply Hfield.
  unfold executeToolCmd_run. rewrite Hmatch, Htool, dispatch_search.
  unfold duckDuckGoSearch. rewrite Hreply.
  by destruct Hfield as [-> | ->].
Qed.

(** C5, as the program has it.  For a path without a comma and without
    white space at its ends, which the file system lets the program write,
    [WRITEFILE] on the path, a comma and the content reports success, and
    [READFILE] on the path then returns the content with every escaped line
    feed resolved. *)
Theorem write_then_read env path content fs :
  Contains path "," = false ->
  TrimSpace path = path ->
  path <> EmptyString ->
  path ∉ readOnly fs ->
  let '(written, _, fs1) := dispatch env "WRITEFILE" (path ++ "," ++ content) fs in
  written = "Successfully wrote to " ++ path /\
  dispatch env "READFILE" path fs1 = (Spec.resolveEscapedNewlines content, None, fs1).
Proof.
  intros Hcomma Htrim Hpath Hrw.
  unfold dispatch. simpl String.eqb. cbv beta iota.
  unfold SplitN2.
  change (path ++ "," ++ content) with (path ++ String ","%char content).
  rewrite (Cut_byte path content ","%char Hcomma), Htrim.
  unfold writeFile, ioutil_WriteFile.
  rewrite ReplaceAll_resolves.
  rewrite (decide_False (P := path = EmptyString)) by done.
  rewrite (decide_False (P := path ∈ readOnly fs)) by done.
  split; [done|].
  unfold readFile, ioutil_ReadFile. simpl files.
  by rewrite lookup_insert_eq.
Qed.

End Dispatcher.

(** ** The conversation store *)

Section Store.
Context {Value : Type} {codec : EncodingJSON Value} {terminal : Lipgloss}.
Implicit Types (m : model Value) (fs : FileSystem).



End Store.

(** ** The statements on the concrete world *)

Section Checks.
Import GoStrings Regexp Tools Sample.
Existing Instance plain.
Existing Instance emptyObject.


Lemma empty_submission_is_noop_witness :
  input start = EmptyString /\
  Update start (KeyMsg "enter") noFiles = (start, None, noFiles).
Proof.
  split; [reflexivity|].
  apply (empty_submission_is_noop start noFiles). reflexivity.
Defined.

Lemma tool_reply_runs_speech_then_tool_witness :
  toolRegex_MatchString toolReply = true /\
  let '(m', cmd, fs') := Update thinking (llmResponseMsg auroraVoiceID toolReply None) noFiles in
  systemState m' = ExecutingTool /\
  cmd = Some (tea_Sequence [speakCmd auroraVoiceID toolReply; executeToolCmd toolReply]) /\
  (exists result,
      (Tea.Cmd_run offline
         (tea_Sequence [speakCmd auroraVoiceID toolReply; executeToolCmd toolReply]) fs').1 =
      [Tea.Started (speakCmd auroraVoiceID toolReply); Tea.Sent (speechDoneMsg auroraVoiceID);
       Tea.Started (executeToolCmd toolReply); Tea.Sent (toolResultMsg result)]) /\
  Tea.toolWaitsForSpeech
    (Tea.Cmd_run offline
       (tea_Sequence [speakCmd auroraVoiceID toolReply; executeToolCmd toolReply]) fs').1 = true.
Proof.
  split; [vm_compute; reflexivity|].
  apply (tool_reply_runs_speech_then_tool offline thinking auroraVoiceID toolReply noFiles).
  vm_compute; reflexivity.
Defined.

(** C4, as the specification has it, fails: for a reply with a tool
    directive the dispatch of the tool does wait for the completion of the
    speech. *)
Lemma tool_dispatch_waits_for_speech :
  toolRegex_MatchString toolReply = true /\
  exists c,
    (Update thinking (llmResponseMsg auroraVoiceID toolReply None) noFiles).1.2 = Some c /\
    Tea.toolWaitsForSpeech (Tea.Cmd_run offline c noFiles).1 <> false.
Proof.
  split; [vm_compute; reflexivity|].
  eexists. split; [vm_compute; reflexivity|].
  vm_compute. discriminate.
Qed.

Lemma empty_abstract_gives_no_result_witness :
  toolRegex_FindStringSubmatch toolReply =
    ["[TOOL:SEARCH:quantum foam]"; "SEARCH"; "quantum foam"] /\
  ToUpper "SEARCH" = "SEARCH" /\
  duckduckgo noAbstract (apiURL "quantum foam") = SearchBody None /\
  executeToolCmd_run noAbstract toolReply noFiles =
    (toolResultMsg "No specific result found, please broaden the query.", noFiles).
Proof.
  split; [vm_compute; reflexivity|].
  split; [vm_compute; reflexivity|].
  split; [reflexivity|].
  apply (empty_abstract_gives_no_result noAbstract toolReply
           "[TOOL:SEARCH:quantum foam]" "SEARCH" "quantum foam" None noFiles).
  - vm_compute; reflexivity.
  - vm_compute; reflexivity.
  - reflexivity.
  - left; reflexivity.
Defined.

(** The scenario of the specification: the argument is the path
    [notes.txt], a comma and the content [line1], backslash, [n],
    [line2]; the file is read back as two physical lines. *)
Lemma write_then_read_witness :
  Contains "notes.txt" "," = false /\
  TrimSpace "notes.txt" = "notes.txt" /\
  (let '(written, _, fs1) :=
     dispatch offline "WRITEFILE" ("notes.txt" ++ "," ++ "line1\nline2") noFiles in
   written = "Successfully wrote to " ++ "notes.txt" /\
   dispatch offline "READFILE" "notes.txt" fs1 =
     (Spec.resolveEscapedNewlines "line1\nline2", None, fs1)) /\
  Spec.physicalLines (Spec.resolveEscapedNewlines "line1\nline2") = ["line1"; "line2"].
Proof.
  split; [vm_compute; reflexivity|].
  split; [vm_compute; reflexivity|].
  split; [|vm_compute; reflexivity].
  apply (write_then_read offline "notes.txt" "line1\nline2" noFiles).
  - vm_compute; reflexivity.
  - vm_compute; reflexivity.
  - discriminate.
  - apply not_elem_of_empty.
Defined.

(** C5, as the specification has it, fails on a path with a comma: the
    argument is split at the first comma, so the file written is [a], with
    content [b,x], and reading [a,b] back finds no file. *)
Lemma write_then_read_comma_path :
  let fs1 := (dispatch offline "WRITEFILE" ("a,b" ++ "," ++ "x") noFiles).2 in
  files fs1 !! "a" = Some "b,x" /\
  files fs1 !! "a,b" = None /\
  (dispatch offline "READFILE" "a,b" fs1).1.1 <> Spec.resolveEscapedNewlines "x".
Proof.
  split; [vm_compute; reflexivity|].
  split; [vm_compute; reflexivity|].
  vm_compute. discriminate.
Qed.


(** The same scenario from the text of the directive. *)
Lemma write_scenario_from_directive :
  let '(msg, fs1) :=
    executeToolCmd_run offline "[TOOL:WRITEFILE:notes.txt,line1\nline2]" noFiles in
  msg = toolResultMsg "Successfully wrote to notes.txt" /\
  (Spec.physicalLines <$> files fs1 !! "notes.txt") = Some ["line1"; "line2"].
Proof. split; vm_compute; reflexivity. Qed.

(** The path is trimmed when the file is written, not when it is read. *)
Lemma write_then_read_padded_path :
  let fs1 := (dispatch offline "WRITEFILE" (" a" ++ "," ++ "x") noFiles).2 in
  files fs1 !! "a" = Some "x" /\
  files fs1 !! " a" = None /\
  (dispatch offline "READFILE" " a" fs1).1.2 <> None.
Proof.
  split; [vm_compute; reflexivity|].
  split; [vm_compute; reflexivity|].
  vm_compute. discriminate.
Qed.

End Checks.

(** * Further properties of the program *)

(** ** The controller over runs of events *)

Section Runs.
Context {Value : Type} {codec : EncodingJSON Value} {terminal : Lipgloss}.
Implicit Types (m : model Value) (fs : FileSystem) (msg : Msg) (msgs : list Msg).
Import Facts.

Lemma Update_memory m msg fs : memory (Update m msg fs).1.1 = memory m.
Proof.
  destruct msg as [w h|key|speaker text [err|]|result|speaker|]; simpl; try done.
  - by repeat case_match.
  - by case_match.
  - by destruct (systemState m).
Qed.

Lemma deliver_step m msg msgs fs :
  deliver m (msg :: msgs) fs =
  ((deliver (Update m msg fs).1.1 msgs (Update m msg fs).2).1.1,
   (option_list (Update m msg fs).1.2 ++
    (deliver (Update m msg fs).1.1 msgs (Update m msg fs).2).1.2)%list,
   (deliver (Update m msg fs).1.1 msgs (Update m msg fs).2).2).
Proof.
  cbn [deliver].
  destruct (Update m msg fs) as [[m1 c] fs1]. cbn [fst snd].
  by destruct (deliver m1 msgs fs1) as [[m2 cs] fs2].
Qed.

(** An invariant of [Update] is an invariant of every run. *)
Lemma deliver_invariant (P : model Value -> Prop) :
  (forall m msg fs, P m -> P (Update m msg fs).1.1) ->
  forall msgs m fs, P m -> P (deliver m msgs fs).1.1.
Proof.
  intros Hstep msgs. induction msgs as [|msg msgs IH]; intros m fs Hm; [done|].
  rewrite deliver_step. cbn [fst]. by apply IH, Hstep.
Qed.

(** X1. No event changes the memory: over any run of events the model
    holds the mapping it held at the start. *)
Theorem memory_never_modified m msgs fs :
  memory (deliver m msgs fs).1.1 = memory m.
Proof.
  apply (deliver_invariant (fun m' => memory m' = memory m)); [|done].
  intros m1 msg fs1 <-. apply Update_memory.
Qed.

(** X2. The turn changes on two events only, a tool result, and a
    speech-done event received in state [Speaking], and then it goes to the
    other agent; every other event leaves it as it is. *)
Theorem turn_changes_on_completion_only m msg fs :
  currentTurn (Update m msg fs).1.1 = currentTurn m \/
  (currentTurn (Update m msg fs).1.1 = otherTurn (currentTurn m) /\
   ((exists result, msg = toolResultMsg result) \/
    (exists speaker, msg = speechDoneMsg speaker /\ systemState m = Speaking))).
Proof.
  destruct msg as [w h|key|speaker text [err|]|result|speaker|]; simpl;
    try (by left).
  - left. by repeat case_match.
  - left. by case_match.
  - right. split; [done|]. left. by eexists.
  - destruct (systemState m) eqn:Hst; simpl; try (by left).
    right. split; [done|]. right. by eexists.
Qed.

Lemma otherTurn_agent turn : isAgent (otherTurn turn).
Proof. unfold otherTurn, isAgent. case_match; auto. Qed.

(** X3. Once the turn is one of the two agents it stays one of them over
    any run of events. *)
Theorem turn_stays_an_agent m msgs fs :
  isAgent (currentTurn m) ->
  isAgent (currentTurn (deliver m msgs fs).1.1).
Proof.
  apply (deliver_invariant (fun m' => isAgent (currentTurn m'))).
  intros m1 msg fs1 Hagent.
  destruct msg as [w h|key|speaker text [err|]|result|speaker|]; simpl;
    try done; try apply otherTurn_agent.
  - by repeat case_match.
  - by case_match.
  - destruct (systemState m1); simpl; [done|apply otherTurn_agent|done].
Qed.

Lemma Update_logs m msg fs :
  messages m `prefix_of` messages (Update m msg fs).1.1 /\
  toolLogs m `prefix_of` toolLogs (Update m msg fs).1.1 /\
  llmHistory m `prefix_of` llmHistory (Update m msg fs).1.1.
Proof.
  split_and!; [| |destruct (Update_history m msg fs) as [added ->];
                   by apply prefix_app_r].
  - destruct msg as [w h|key|speaker text [err|]|result|speaker|]; simpl;
      try done; try (by apply prefix_app_r).
    + repeat case_match; simpl; try done. by apply prefix_app_r.
    + case_match; simpl; by apply prefix_app_r.
    + by destruct (systemState m).
  - destruct msg as [w h|key|speaker text [err|]|result|speaker|]; simpl;
      try done; try (by apply prefix_app_r).
    + by repeat case_match.
    + by case_match.
    + by destruct (systemState m).
Qed.

(** X4. Over any run of events the conversation panel, the tool log and the
    LLM history only grow: what they held at the start is a prefix of what
    they hold at the end. *)
Theorem logs_only_grow m msgs fs :
  messages m `prefix_of` messages (deliver m msgs fs).1.1 /\
  toolLogs m `prefix_of` toolLogs (deliver m msgs fs).1.1 /\
  llmHistory m `prefix_of` llmHistory (deliver m msgs fs).1.1.
Proof.
  apply (deliver_invariant
           (fun m' => messages m `prefix_of` messages m' /\
                      toolLogs m `prefix_of` toolLogs m' /\
                      llmHistory m `prefix_of` llmHistory m')); [|done].
  intros m1 msg fs1 (Hm & Ht & Hh).
  destruct (Update_logs m1 msg fs1) as (Hm1 & Ht1 & Hh1).
  split_and!; by etrans.
Qed.

(** X5. A generation call that [Update] returns is for the agent whose turn
    it is after the transition, carries the whole history after the
    transition, and leaves the controller in state [Thinking]. *)
Theorem generation_call_sees_current_history m msg fs speaker history :
  (Update m msg fs).1.2 = Some (Run (getLLMResponseCmd speaker history)) ->
  speaker = currentTurn (Update m msg fs).1.1 /\
  history = llmHistory (Update m msg fs).1.1 /\
  systemState (Update m msg fs).1.1 = Thinking.
Proof.
  destruct msg as [w h|key|sp text [err|]|result|sp|]; simpl; try done.
  - repeat case_match; simpl; try done. by intros [= <- <-].
  - by case_match.
  - by intros [= <- <-].
  - destruct (systemState m); simpl; try done. by intros [= <- <-].
Qed.

(** X6. A tool command that [Update] returns is for a text in which the
    tool pattern has a match: its closure never answers that the tool format
    is invalid. *)
Theorem scheduled_tool_call_matches m msg fs c toolCall :
  (Update m msg fs).1.2 = Some c ->
  executeToolCmd toolCall ∈ worksOf c ->
  Regexp.toolRegex_MatchString toolCall = true.
Proof.
  assert (forall speaker history,
             executeToolCmd toolCall ∈ [getLLMResponseCmd speaker history] -> False)
    as Hgen.
  { intros speaker history Hin.
    apply elem_of_cons in Hin as [[=]|Hin]. by apply elem_of_nil in Hin. }
  destruct msg as [w h|key|sp text [err|]|result|sp|]; simpl; try done.
  - repeat case_match; simpl; try done; intros [= <-]; simpl; intros Hin.
    + by apply elem_of_nil in Hin.
    + by destruct (Hgen _ _ Hin).
  - destruct (Regexp.toolRegex_MatchString text) eqn:Hmatch; simpl;
      intros [= <-]; simpl; intros Hin.
    + apply elem_of_cons in Hin as [[=]|Hin].
      apply elem_of_cons in Hin as [[= ->]|Hin]; [done|].
      by apply elem_of_nil in Hin.
    + apply elem_of_cons in Hin as [[=]|Hin]. by apply elem_of_nil in Hin.
  - intros [= <-] Hin. by destruct (Hgen _ _ Hin).
  - destruct (systemState m); simpl; try done.
    intros [= <-] Hin. by destruct (Hgen _ _ Hin).
Qed.

Lemma append_cons a s t : String a s ++ t = String a (s ++ t).
Proof. reflexivity. Qed.

Lemma append_nil_r s : s ++ EmptyString = s.
Proof. induction s as [|a s IH]; [done|]. by rewrite append_cons, IH. Qed.

Lemma append_assoc s t u : (s ++ t) ++ u = s ++ t ++ u.
Proof. induction s as [|a s IH]; [done|]. by rewrite !append_cons, IH. Qed.

Lemma deliver_app m msgs1 msgs2 fs :
  deliver m (msgs1 ++ msgs2) fs =
  ((deliver (deliver m msgs1 fs).1.1 msgs2 (deliver m msgs1 fs).2).1.1,
   ((deliver m msgs1 fs).1.2 ++
    (deliver (deliver m msgs1 fs).1.1 msgs2 (deliver m msgs1 fs).2).1.2)%list,
   (deliver (deliver m msgs1 fs).1.1 msgs2 (deliver m msgs1 fs).2).2).
Proof.
  revert m fs. induction msgs1 as [|msg msgs1 IH]; intros m fs.
  - simpl. by destruct (deliver m msgs2 fs) as [[? ?] ?].
  - rewrite <- app_comm_cons, !deliver_step, IH. cbn [fst snd].
    by rewrite app_assoc.
Qed.

Lemma deliver_typed m keys fs :
  forallb isKeyOfText keys = true ->
  deliver m (map KeyMsg keys) fs = (set_input (input m ++ typedText keys) m, [], fs).
Proof.
  revert m. induction keys as [|key keys IH]; intros m Hkeys.
  - simpl. rewrite append_nil_r. by destruct m.
  - simpl in Hkeys. apply andb_prop in Hkeys as [Hkey Hkeys].
    rewrite map_cons, deliver_step.
    assert (Update m (KeyMsg key) fs = (set_input (input m ++ key) m, None, fs)) as ->.
    { unfold isKeyOfText in Hkey. apply negb_true_iff in Hkey.
      apply orb_false_elim in Hkey as [Hquit Henter].
      simpl. by rewrite Hquit, Henter. }
    cbn [fst snd]. rewrite (IH _ Hkeys). simpl.
    by rewrite append_assoc.
Qed.

(** X7. Keys typed one after the other and then enter: the text typed (after
    what the input held) is submitted as one user entry of the history and
    one line of the conversation panel, the input is emptied, the memory
    file is written, and one generation call is issued, for the agent whose
    turn it was, which has not changed. *)
Theorem typed_text_is_submitted m keys fs :
  forallb isKeyOfText keys = true ->
  input m ++ typedText keys <> EmptyString ->
  let text := input m ++ typedText keys in
  let entry := {| role := "user"; content := text |} in
  let '(m', cmds, fs') := deliver m (map KeyMsg keys ++ [KeyMsg "enter"]) fs in
  input m' = EmptyString /\
  llmHistory m' = (llmHistory m ++ [entry])%list /\
  messages m' =
    (messages m ++ [(Render userStyle "User Directive: " ++ text)%string])%list /\
  systemState m' = Thinking /\
  currentTurn m' = currentTurn m /\
  cmds = [Run (getLLMResponseCmd (currentTurn m) (llmHistory m ++ [entry]))] /\
  fs' = saveMemory m fs.
Proof.
  intros Hkeys Htext text entry.
  rewrite deliver_app, (deliver_typed m keys fs Hkeys). cbn [fst snd].
  rewrite deliver_step. cbn [deliver fst snd].
  assert (String.eqb text EmptyString = false) as Hne by by apply String.eqb_neq.
  simpl. fold text. by rewrite Hne.
Qed.

(** X8. A generation call that fails, whichever way (connection, decoding,
    an error reported by the service, a body without a text): handing its
    message to [Update] adds one line to the conversation panel, the
    system-styled error, and changes nothing else; no command is returned,
    so the loop waits for the user. *)
Theorem failed_generation_stalls (env : Env) m fs :
  (forall text,
      ollama env (Tools.prompt (currentTurn m) (llmHistory m)) <>
      OllamaBody None (Some text)) ->
  let msg := Tools.getLLMResponseCmd_run env (currentTurn m) (llmHistory m) in
  let '(m', cmd, fs') := Update m msg fs in
  (exists err,
      GoStrings.HasPrefix err "LLM " = true /\
      messages m' =
        (messages m ++ [Render systemStyle ("Error: " ++ err)%string])%list) /\
  cmd = None /\
  currentTurn m' = currentTurn m /\
  llmHistory m' = llmHistory m /\
  systemState m' = systemState m /\
  toolLogs m' = toolLogs m /\
  fs' = fs.
Proof.
  intros Hfail msg. unfold msg, Tools.getLLMResponseCmd_run.
  destruct (ollama env _) as [err|err|[errMsg|] [text|]];
    try (simpl; split_and!; try done;
         eexists; (split; [|reflexivity]); reflexivity).
  by destruct (Hfail text).
Qed.

End Runs.

(** ** The tool pattern *)

Section ToolPattern.
Import GoStrings Regexp Facts.

Lemma CutPrefix_Some p : forall s r, CutPrefix s p = Some r -> s = p ++ r.
Proof.
  induction p as [|a p IH]; intros s r; simpl.
  - by intros [= ->].
  - destruct s as [|b s]; [done|].
    destruct (Ascii.eqb_spec a b) as [<-|]; [|done].
    intros Hcut. by rewrite append_cons, <- (IH s r Hcut).
Qed.

Lemma spanWord_spec s :
  s = (spanWord s).1 ++ (spanWord s).2 /\ allBytes isWord (spanWord s).1 = true.
Proof.
  induction s as [|c s [IH1 IH2]]; [done|]. simpl.
  destruct (isWord c) eqn:Hc; [|done].
  destruct (spanWord s) as [w r]. simpl in *.
  rewrite append_cons, <- IH1, Hc. by split.
Qed.

Lemma untilClose_spec s : forall a r,
  untilClose s = Some (a, r) ->
  s = a ++ String "]"%char r /\
  allBytes notLF a = true /\ allBytes notClose a = true.
Proof.
  induction s as [|c s IH]; intros a r; simpl; [done|].
  destruct (Ascii.eqb_spec c "]"%char) as [->|Hclose].
  { by intros [= <- <-]. }
  destruct (Ascii.eqb c LF) eqn:Hlf; [done|].
  destruct (untilClose s) as [[a' r']|]; [|done].
  intros [= <- <-]. destruct (IH a' r' eq_refl) as (-> & Hlfs & Hcloses).
  simpl. unfold notLF at 1, notClose at 1. rewrite Hlf, Hlfs, Hcloses.
  split; [done|]. split; [done|].
  by apply Ascii.eqb_neq in Hclose as ->.
Qed.

Lemma toolRegex_at_spec s tool arg rest :
  toolRegex_at s = Some (tool, arg, rest) ->
  s = matched tool arg ++ rest /\
  tool <> EmptyString /\
  allBytes isWord tool = true /\
  exists c a, arg = String c a /\ c <> LF /\
              allBytes notLF a = true /\ allBytes notClose a = true.
Proof.
  unfold toolRegex_at.
  destruct (CutPrefix s "[TOOL:") as [r0|] eqn:Hpre; [|done].
  apply CutPrefix_Some in Hpre as ->.
  destruct (spanWord_spec r0) as [Hsplit Hword].
  destruct (spanWord r0) as [w r1]. simpl in Hsplit, Hword.
  destruct w as [|w0 w]; [done|].
  destruct r1 as [|c1 [|c r2]];
    [done|by destruct c1 as [[] [] [] [] [] [] [] []]|].
  destruct c1 as [[] [] [] [] [] [] [] []]; try done.
  destruct (Ascii.eqb_spec c LF) as [|Hlf]; [done|].
  destruct (untilClose r2) as [[a r3]|] eqn:Hclose; [|done].
  intros [= <- <- <-].
  apply untilClose_spec in Hclose as (-> & Hlfs & Hcloses).
  split_and!; [|done|done|by exists c, a].
  rewrite Hsplit. unfold matched.
  by rewrite !append_assoc, !append_cons, ?append_assoc.
Qed.

Lemma FindStringSubmatch_unfold s :
  toolRegex_FindStringSubmatch s =
  match toolRegex_at s with
  | Some (tool, arg, _) => [matched tool arg; tool; arg]
  | None =>
      match s with
      | EmptyString => []
      | String _ s' => toolRegex_FindStringSubmatch s'
      end
  end.
Proof. by destruct s. Qed.

(** X9. What a match of the tool pattern looks like: the text matched is a
    piece of the text searched and reads [[TOOL:name:argument]]; the name is
    a non-empty run of ASCII letters, digits and underscores; the argument is
    not empty and holds no line feed, and no closing bracket after its first
    byte. *)
Theorem toolRegex_match_shape s whole tool arg :
  toolRegex_FindStringSubmatch s = [whole; tool; arg] ->
  whole = "[TOOL:" ++ tool ++ ":" ++ arg ++ "]" /\
  (exists before after, s = before ++ whole ++ after) /\
  tool <> EmptyString /\
  allBytes isWord tool = true /\
  (exists c rest, arg = String c rest /\ c <> LF /\
                  allBytes notLF rest = true /\ allBytes notClose rest = true).
Proof.
  induction s as [|c s IH]; rewrite FindStringSubmatch_unfold.
  - by vm_compute.
  - destruct (toolRegex_at (String c s)) as [[[t a] r]|] eqn:Hat.
    + intros [= <- <- <-].
      apply toolRegex_at_spec in Hat as (Hs & Htool & Hword & Harg).
      split_and!; try done. exists EmptyString, r. exact Hs.
    + intros Hfind.
      destruct (IH Hfind) as (Hw & (before & after & ->) & Htool & Hword & Harg).
      split_and!; try done. by exists (String c before), after.
Qed.

End ToolPattern.

(** ** More on the tool dispatcher *)

Section FileTools.
Implicit Types (env : Env) (fs : FileSystem).
Import GoStrings Regexp Tools Facts.

Lemma dispatch_write env path content fs :
  Contains path "," = false ->
  TrimSpace path = path ->
  path <> EmptyString ->
  path ∉ readOnly fs ->
  dispatch env "WRITEFILE" (path ++ "," ++ content) fs =
  ("Successfully wrote to " ++ path, None,
   {| files := <[path := Spec.resolveEscapedNewlines content]> (files fs);
      readOnly := readOnly fs |}).
Proof.
  intros Hcomma Htrim Hpath Hrw.
  unfold dispatch. simpl String.eqb. cbv beta iota.
  unfold SplitN2.
  change (path ++ "," ++ content) with (path ++ String ","%char content).
  rewrite (Cut_byte path content ","%char Hcomma), Htrim.
  unfold writeFile, ioutil_WriteFile.
  rewrite ReplaceAll_resolves.
  rewrite (decide_False (P := path = EmptyString)) by done.
  by rewrite (decide_False (P := path ∈ readOnly fs)) by done.
Qed.

Lemma dispatch_read env path content fs :
  files fs !! path = Some content ->
  dispatch env "READFILE" path fs = (content, None, fs).
Proof.
  intros Hfile. unfold dispatch. simpl String.eqb. cbv beta iota.
  unfold readFile, ioutil_ReadFile. by rewrite Hfile.
Qed.

(** X10. The tools other than [EXECUTE] touch at most one file: the set of
    read-only paths is unchanged, and every file is as before, except the one
    [WRITEFILE] names before the first comma of its argument, white space
    trimmed. *)
Theorem file_tools_touch_one_file env tool arg fs :
  tool <> "EXECUTE" ->
  readOnly (dispatch env tool arg fs).2 = readOnly fs /\
  forall q,
    files (dispatch env tool arg fs).2 !! q = files fs !! q \/
    (tool = "WRITEFILE" /\
     exists path content, SplitN2 arg "," = [path; content] /\ q = TrimSpace path).
Proof.
  intros Hexec. unfold dispatch.
  destruct (String.eqb tool "SEARCH").
  { destruct (duckDuckGoSearch env arg). split; [done|]. by left. }
  destruct (String.eqb tool "READFILE").
  { destruct (readFile fs arg). split; [done|]. by left. }
  destruct (String.eqb_spec tool "WRITEFILE") as [->|_].
  { destruct (SplitN2 arg ",") as [|path [|content [|? ?]]] eqn:Hsplit;
      try (split; [done|]; by left).
    unfold writeFile, ioutil_WriteFile.
    destruct (decide (TrimSpace path = EmptyString)); [split; [done|]; by left|].
    destruct (decide (TrimSpace path ∈ readOnly fs)); [split; [done|]; by left|].
    simpl. split; [done|]. intros q.
    destruct (decide (q = TrimSpace path)) as [->|Hq].
    - right. split; [done|]. by exists path, content.
    - left. by rewrite lookup_insert_ne. }
  destruct (String.eqb_spec tool "EXECUTE") as [->|_]; [done|].
  split; [done|]. by left.
Qed.

(** X11. The last write wins: after two [WRITEFILE] calls on the same
    path, [READFILE] returns the second content (its escaped line feeds
    resolved), and the file system is the one the second call alone would
    have left. *)
Theorem last_write_wins env path first second fs :
  Contains path "," = false ->
  TrimSpace path = path ->
  path <> EmptyString ->
  path ∉ readOnly fs ->
  let fs1 := (dispatch env "WRITEFILE" (path ++ "," ++ first) fs).2 in
  let fs2 := (dispatch env "WRITEFILE" (path ++ "," ++ second) fs1).2 in
  dispatch env "READFILE" path fs2 = (Spec.resolveEscapedNewlines second, None, fs2) /\
  fs2 = (dispatch env "WRITEFILE" (path ++ "," ++ second) fs).2.
Proof.
  intros Hcomma Htrim Hpath Hrw fs1 fs2. unfold fs2, fs1.
  rewrite (dispatch_write env path first fs) by done. cbn [snd].
  rewrite !dispatch_write by done. cbn [snd files readOnly].
  split.
  - apply dispatch_read. simpl. by rewrite lookup_insert_eq.
  - by rewrite insert_insert_eq.
Qed.

Lemma Cut_None_inv c s old :
  Cut (String c s) old = None ->
  HasPrefix (String c s) old = false /\ Cut s old = None.
Proof.
  unfold HasPrefix. cbn [Cut].
  destruct (CutPrefix (String c s) old); [done|].
  by destruct (Cut s old) as [[? ?]|].
Qed.

(** A text that does not hold [old] is left as it is by [strings.Replace]. *)
Lemma Replace_no_occurrence old new n s :
  Contains s old = false -> Replace s old new n = s.
Proof.
  unfold Contains, Replace. revert n.
  induction s as [|c s IH]; intros n Hs; [done|].
  destruct (Cut (String c s) old) as [|] eqn:Hcut; [done|].
  apply Cut_None_inv in Hcut as [Hpre Hcut].
  cbn [Replace_from]. rewrite Hpre.
  rewrite Hcut in IH.
  destruct n as [[|k]|]; [done| |]; by rewrite IH.
Qed.

(** X12. A content without the two bytes backslash, [n] is written to the
    file byte for byte. *)
Theorem content_without_escape_is_verbatim env path content fs :
  Contains path "," = false ->
  TrimSpace path = path ->
  path <> EmptyString ->
  path ∉ readOnly fs ->
  Contains content (String backslash "n") = false ->
  files (dispatch env "WRITEFILE" (path ++ "," ++ content) fs).2 !! path = Some content.
Proof.
  intros Hcomma Htrim Hpath Hrw Hescape.
  rewrite dispatch_write by done. cbn [snd files].
  rewrite lookup_insert_eq, <- ReplaceAll_resolves.
  unfold ReplaceAll. by rewrite Replace_no_occurrence.
Qed.

Lemma Fields_spaceOnly s : forall skip,
  spaceOnly_from skip s = true -> Fields_from skip EmptyString s = [].
Proof.
  induction s as [|c s IH]; intros skip; [done|].
  cbn [spaceOnly_from Fields_from].
  destruct skip as [|k]; [|apply IH].
  destruct (spaceWidth (String c s)) as [|k]; [done|]. apply IH.
Qed.

(** X13. [EXECUTE] on an argument made of white space only starts no
    program: the result is the text of the empty command, without an error,
    and the file system is untouched whatever the programs of the
    environment would do. *)
Theorem blank_command_runs_nothing env command fs :
  spaceOnly_from 0 command = true ->
  dispatch env "EXECUTE" command fs = ("Error: Empty command.", None, fs).
Proof.
  intros Hblank. unfold dispatch. simpl String.eqb. cbv beta iota.
  unfold executeTool, Fields. by rewrite Fields_spaceOnly.
Qed.

Lemma allBytes_snoc p s c :
  allBytes p s = true -> p c = true -> allBytes p (s ++ String c EmptyString) = true.
Proof.
  intros Hs Hc. induction s as [|a s IH]; simpl in *.
  - by rewrite Hc.
  - apply andb_prop in Hs as [-> Hs]. by apply IH.
Qed.

Lemma snoc_not_empty s c : s ++ String c EmptyString <> EmptyString.
Proof. by destruct s. Qed.

Lemma Fields_from_tokens s : forall skip cur,
  allBytes (fun c => negb (isAsciiSpace c)) cur = true ->
  Forall isToken (Fields_from skip cur s).
Proof.
  assert (forall cur, allBytes (fun c => negb (isAsciiSpace c)) cur = true ->
                      Forall isToken (nonEmpty cur)) as Hlast.
  { intros [|a cur] Hcur; [constructor|]. by repeat constructor. }
  induction s as [|c s IH]; intros skip cur Hcur; [by apply Hlast|].
  cbn [Fields_from]. destruct skip as [|k]; [|by apply IH].
  destruct (spaceWidth (String c s)) as [|k] eqn:Hwidth.
  - apply IH. apply allBytes_snoc; [done|].
    unfold isAsciiSpace. unfold spaceWidth in Hwidth.
    by destruct (byte_in 9 13 c || byte_in 32 32 c)%bool.
  - apply Forall_app. split; [by apply Hlast|]. by apply IH.
Qed.

(** X14. The tokens [EXECUTE] hands to the operating system, the fields of
    the command line, are never empty and hold no ASCII white space. *)
Theorem Fields_are_tokens command : Forall isToken (Fields command).
Proof. by apply Fields_from_tokens. Qed.


End FileTools.

(** ** The search address and the spoken text *)

Section Escaping.
Import GoStrings Regexp Tools Facts.

Lemma QueryEscape_byte c rest :
  allBytes isQuerySafe rest = true ->
  allBytes isQuerySafe
    (if Ascii.eqb c " "%char then String "+"%char rest
     else if shouldEscape c then
       String "%"%char (String (hexDigit (N_of_ascii c / 16))
                          (String (hexDigit (N_of_ascii c mod 16)) rest))
     else String c rest) = true.
Proof.
  intros Hrest.
  destruct c as [[] [] [] [] [] [] [] []]; vm_compute; exact Hrest.
Qed.

(** X16. The query, as it is put into the address of the search service,
    holds only ASCII letters, digits and the bytes [-], [_], [.], [~], [+]
    and [%]: no byte of the query can end the parameter or start another
    one. *)
Theorem QueryEscape_is_safe query : allBytes isQuerySafe (QueryEscape query) = true.
Proof.
  induction query as [|c query IH]; [done|].
  cbn [QueryEscape]. by apply QueryEscape_byte.
Qed.

Lemma HasPrefix_fence s : HasPrefix s fence = Nat.leb 3 (leadingTicks s).
Proof.
  unfold HasPrefix, fence.
  destruct s as [|a [|b [|c t]]]; cbn [CutPrefix leadingTicks]; unfold isTick;
    rewrite ?(Ascii.eqb_sym "`"%char);
    repeat match goal with
           | |- context [Ascii.eqb ?x "`"%char] => destruct (Ascii.eqb x "`"%char)
           end; reflexivity.
Qed.

Lemma HasPrefix_true s old :
  HasPrefix s old = true -> exists t, s = old ++ t.
Proof.
  unfold HasPrefix. destruct (CutPrefix s old) as [t|] eqn:Hcut; [|done].
  intros _. exists t. by apply CutPrefix_Some.
Qed.

Lemma Contains_cons c x old :
  HasPrefix (String c x) old = false ->
  Contains x old = false ->
  Contains (String c x) old = false.
Proof.
  unfold HasPrefix, Contains. cbn [Cut].
  destruct (CutPrefix (String c x) old); [done|].
  by destruct (Cut x old) as [[? ?]|].
Qed.

Lemma leadingTicks_fence t : leadingTicks (fence ++ t) = (3 + leadingTicks t)%nat.
Proof. reflexivity. Qed.

Lemma length_fence t : String.length (fence ++ t) = (3 + String.length t)%nat.
Proof. reflexivity. Qed.

Lemma remove_fences_bounded n : forall s,
  (String.length s <= n)%nat ->
  Contains (Replace_from fence EmptyString None 0 s) fence = false /\
  (leadingTicks (Replace_from fence EmptyString None 0 s) <= leadingTicks s)%nat.
Proof.
  induction n as [|n IH]; intros s Hlen.
  { destruct s; [by split|simpl in Hlen; lia]. }
  destruct s as [|c s]; [by split|].
  rewrite Replace_from_all.
  destruct (HasPrefix (String c s) fence) eqn:Hpre.
  - destruct (HasPrefix_true _ _ Hpre) as [t Ht].
    assert (String.length t <= n)%nat as Ht_len.
    { rewrite Ht, length_fence in Hlen. lia. }
    destruct (IH t Ht_len) as [Hno Hlead].
    rewrite Ht, leadingTicks_fence.
    injection Ht as -> ->.
    change (EmptyString ++ Replace_from fence EmptyString None
                             (String.length fence - 1) ("``" ++ t))
      with (Replace_from fence EmptyString None 0 t).
    split; [done|lia].
  - assert (String.length s <= n)%nat as Hs_len by (simpl in Hlen; lia).
    destruct (IH s Hs_len) as [Hno Hlead].
    rewrite HasPrefix_fence in Hpre. apply Nat.leb_gt in Hpre.
    cbn [leadingTicks] in Hpre |- *.
    split.
    + apply Contains_cons; [|done].
      rewrite HasPrefix_fence. apply Nat.leb_gt. cbn [leadingTicks].
      destruct (isTick c); lia.
    + destruct (isTick c); lia.
Qed.

(** X17. The text handed to the speech synthesis never holds a code fence
    (three back-quotes in a row), whatever the reply. *)
Theorem spoken_text_has_no_fence text : Contains (plainText text) fence = false.
Proof.
  unfold plainText, ReplaceAll at 1, Replace.
  by eapply remove_fences_bounded.
Qed.

End Escaping.

(** ** More on the conversation store *)

Section Persistence.
Context {Value : Type} {codec : EncodingJSON Value} {terminal : Lipgloss}.
Implicit Types (m : model Value) (fs : FileSystem) (msgs : list Msg).
Import GoStrings Facts.

Lemma saveMemory_cases m fs :
  saveMemory m fs = fs \/
  saveMemory m fs =
    {| files := <[memoryFile := default EmptyString (json_MarshalIndent (memory m))]>
                  (files fs);
       readOnly := readOnly fs |}.
Proof.
  unfold saveMemory, ioutil_WriteFile.
  destruct (decide (memoryFile = EmptyString)); [by left|].
  destruct (decide (memoryFile ∈ readOnly fs)); [by left|by right].
Qed.

(** X18. Saving the memory touches the memory file only: the read-only
    paths and every other file are as before; and saving twice is saving
    once. *)
Theorem saveMemory_touches_memory_file_only m fs :
  readOnly (saveMemory m fs) = readOnly fs /\
  (forall q, q = memoryFile \/ files (saveMemory m fs) !! q = files fs !! q) /\
  saveMemory m (saveMemory m fs) = saveMemory m fs.
Proof.
  unfold saveMemory, ioutil_WriteFile.
  destruct (decide (memoryFile = EmptyString)); [done|].
  destruct (decide (memoryFile ∈ readOnly fs)) as [Hro|Hrw]; cbn [fst].
  - rewrite (decide_True (P := memoryFile ∈ readOnly fs)) by done.
    split_and!; [done| |done]. intros q. by right.
  - cbn [readOnly files].
    rewrite (decide_False (P := memoryFile ∈ readOnly fs)) by done.
    cbn [fst]. split_and!; [done| |by rewrite insert_insert_eq].
    intros q. destruct (decide (q = memoryFile)) as [->|Hq]; [by left|].
    right. by rewrite lookup_insert_ne.
Qed.

Lemma Update_fs_cases m msg fs :
  (Update m msg fs).2 = fs \/ (Update m msg fs).2 = saveMemory m fs.
Proof.
  destruct msg as [w h|key|speaker text [err|]|result|speaker|]; simpl;
    try (by left).
  - repeat case_match; simpl; try (by left). by right.
  - left. by case_match.
  - left. by destruct (systemState m).
Qed.

Lemma persisted_step m fs fs1 :
  persisted m fs fs1 -> persisted m fs (saveMemory m fs1).
Proof.
  intros (Hro & Hothers & Hfile).
  destruct (saveMemory_cases m fs1) as [-> | ->]; [done|].
  split_and!; [done| |right; simpl; by rewrite lookup_insert_eq].
  intros q. destruct (decide (q = memoryFile)) as [->|Hq]; [by left|].
  right. simpl. rewrite lookup_insert_ne by done.
  by destruct (Hothers q).
Qed.

Lemma deliver_persisted msgs : forall m m1 fs fs1,
  memory m1 = memory m ->
  persisted m fs fs1 ->
  persisted m fs (deliver m1 msgs fs1).2.
Proof.
  induction msgs as [|msg msgs IH]; intros m m1 fs fs1 Hmem Hfs; [done|].
  rewrite deliver_step. cbn [snd].
  apply IH; [by rewrite Update_memory|].
  destruct (Update_fs_cases m1 msg fs1) as [-> | ->]; [done|].
  unfold saveMemory. rewrite Hmem. by apply persisted_step.
Qed.

(** X19. Over any run of events the controller changes one file at most,
    the memory file, and what it writes there is the marshalled memory the
    model held at the start of the run: nothing of the conversation reaches
    the disk. *)
Theorem run_persists_the_start_memory_only m msgs fs :
  readOnly (deliver m msgs fs).2 = readOnly fs /\
  (forall q, q = memoryFile \/ files (deliver m msgs fs).2 !! q = files fs !! q) /\
  (files (deliver m msgs fs).2 !! memoryFile = files fs !! memoryFile \/
   files (deliver m msgs fs).2 !! memoryFile =
     Some (default EmptyString (json_MarshalIndent (memory m)))).
Proof.
  apply (deliver_persisted msgs m m fs fs); [done|].
  split_and!; [done| |by left]. intros q. by right.
Qed.

(** X20. The memory at start-up: the empty map when there is no memory
    file; the object of the file when it holds one; the nil map when the file
    holds [null] or cannot be decoded. *)
Theorem startup_memory fs :
  memory (initialModel fs) =
  match files fs !! memoryFile with
  | None => Some ∅
  | Some data =>
      match json_Decode data with
      | Some (Some obj) => Some obj
      | _ => None
      end
  end.
Proof.
  unfold initialModel, loadMemory, ioutil_ReadFile.
  destruct (files fs !! memoryFile) as [data|]; [|done].
  simpl. unfold json_Unmarshal.
  destruct (json_Decode data) as [[obj|]|]; try done.
  simpl. f_equal. apply (right_id_L ∅ (∪)).
Qed.

Lemma TrimLeft_spaceOnly s : forall skip,
  spaceOnly_from skip s = true -> TrimLeft_from skip s = EmptyString.
Proof.
  induction s as [|c s IH]; intros skip; [done|].
  cbn [spaceOnly_from TrimLeft_from].
  destruct skip as [|k]; [|apply IH].
  destruct (spaceWidth (String c s)) as [|k]; [done|]. apply IH.
Qed.

(** X21. An answer of the generation service that is white space only
    still makes a turn: the reply is the empty text, it is appended to the
    history under the name of the agent, and an empty speech is
    scheduled. *)
Theorem blank_answer_is_an_empty_turn (env : Env) m fs response :
  ollama env (Tools.prompt (currentTurn m) (llmHistory m)) =
    OllamaBody None (Some response) ->
  spaceOnly_from 0 response = true ->
  let msg := Tools.getLLMResponseCmd_run env (currentTurn m) (llmHistory m) in
  msg = llmResponseMsg (currentTurn m) EmptyString None /\
  llmHistory (Update m msg fs).1.1 =
    (llmHistory m ++ [{| role := currentTurn m; content := EmptyString |}])%list /\
  systemState (Update m msg fs).1.1 = Speaking /\
  (Update m msg fs).1.2 = Some (Run (speakCmd (currentTurn m) EmptyString)).
Proof.
  intros Hreply Hblank msg. unfold msg, Tools.getLLMResponseCmd_run.
  rewrite Hreply. unfold TrimSpace, TrimLeftSpace.
  by rewrite TrimLeft_spaceOnly.
Qed.

End Persistence.

(** ** The view *)

Section ViewFacts.
Context {Value : Type} {layout : LipglossLayout}.
Implicit Types (m : model Value).
Import GoStrings Rendering.

Local Ltac powers :=
  change (2 ^ 62)%Z with 4611686018427387904%Z in *;
  change (2 ^ 63)%Z with 9223372036854775808%Z in *;
  change (2 ^ 64)%Z with 18446744073709551616%Z in *.

Lemma int_wrap_small z : (- 2 ^ 63 <= z < 2 ^ 63)%Z -> int_wrap z = z.
Proof. intros Hz. unfold int_wrap. powers. rewrite Z.mod_small; lia. Qed.

Lemma window_below_zero texts viewHeight :
  (- 2 ^ 62 < viewHeight < 0)%Z ->
  (Z.of_nat (length (panelLines texts)) < 2 ^ 62)%Z ->
  window texts viewHeight = None.
Proof.
  intros Hh Hlen. unfold window, int_sub, sliceFrom. powers.
  powers. rewrite int_wrap_small by (powers; lia).
  destruct (Z.ltb_spec (Z.of_nat (length (panelLines texts)) - viewHeight) 0); [lia|].
  rewrite andb_false_intro2; [done|]. apply Z.leb_gt. lia.
Qed.

Lemma window_from_zero texts viewHeight :
  (0 <= viewHeight < 2 ^ 62)%Z ->
  (Z.of_nat (length (panelLines texts)) < 2 ^ 62)%Z ->
  window texts viewHeight =
  Some (drop (length (panelLines texts) - Z.to_nat viewHeight) (panelLines texts)).
Proof.
  intros Hh Hlen. unfold window, int_sub, sliceFrom. powers.
  powers. rewrite int_wrap_small by (powers; lia).
  destruct (Z.ltb_spec (Z.of_nat (length (panelLines texts)) - viewHeight) 0).
  - simpl. rewrite (proj2 (Z.leb_le _ _)) by lia.
    do 2 f_equal. lia.
  - rewrite andb_true_intro; [do 2 f_equal; lia|].
    split; [apply Z.leb_le|apply Z.leb_le]; lia.
Qed.

(** X22. [View] panics exactly when the height of the window is below 12
    lines: the slice of the conversation lines then starts past their end.
    The model starts with height 0. *)
Theorem View_panics_below_twelve_lines m :
  (0 <= height m < 2 ^ 62)%Z ->
  (Z.of_nat (length (panelLines (messages m))) < 2 ^ 62)%Z ->
  (Z.of_nat (length (panelLines (toolLogs m))) < 2 ^ 62)%Z ->
  View m = None <-> (height m < 12)%Z.
Proof.
  intros Hh Hconvo Htool. unfold View, convoViewHeight, int_sub.
  powers. rewrite int_wrap_small by (powers; lia).
  rewrite (window_from_zero (toolLogs m) toolViewHeight) by (unfold toolViewHeight; powers; lia).
  destruct (Z.lt_ge_cases (height m) 12) as [Hlow|Hhigh].
  - rewrite window_below_zero by lia. by split.
  - rewrite window_from_zero by lia. split; [done|lia].
Qed.

(** X23. With a height of 12 lines or more the conversation panel shows the
    last lines of the conversation, [height - 12] of them, or all of them
    when there are fewer. *)
Theorem conversation_panel_shows_last_lines m :
  (12 <= height m < 2 ^ 62)%Z ->
  (Z.of_nat (length (panelLines (messages m))) < 2 ^ 62)%Z ->
  exists shown,
    window (messages m) (convoViewHeight m) = Some shown /\
    shown `suffix_of` panelLines (messages m) /\
    length shown =
      Nat.min (length (panelLines (messages m))) (Z.to_nat (height m - 12)).
Proof.
  intros Hh Hconvo. unfold convoViewHeight, int_sub.
  powers. rewrite int_wrap_small by (powers; lia).
  rewrite window_from_zero by lia.
  eexists. split; [done|]. split; [apply suffix_drop|].
  rewrite length_drop. lia.
Qed.

End ViewFacts.

(** ** The further statements on the concrete world *)

Section MoreChecks.
Import GoStrings Regexp Tools Facts Rendering Sample Sample2.
Existing Instance plain.
Existing Instance emptyObject.
Existing Instance bare.

Lemma turn_stays_an_agent_witness :
  isAgent (currentTurn start) /\
  isAgent (currentTurn (deliver start cycle noFiles).1.1).
Proof.
  assert (isAgent (currentTurn start)) as Hstart by (right; reflexivity).
  split; [exact Hstart|].
  exact (turn_stays_an_agent start cycle noFiles Hstart).
Defined.

Lemma generation_call_sees_current_history_witness :
  (Update start (speechDoneMsg etherVoiceID) noFiles).1.2 =
    Some (Run (getLLMResponseCmd etherVoiceID (llmHistory start))) /\
  etherVoiceID = currentTurn (Update start (speechDoneMsg etherVoiceID) noFiles).1.1 /\
  llmHistory start = llmHistory (Update start (speechDoneMsg etherVoiceID) noFiles).1.1 /\
  systemState (Update start (speechDoneMsg etherVoiceID) noFiles).1.1 = Thinking.
Proof.
  split; [reflexivity|].
  apply (generation_call_sees_current_history start (speechDoneMsg etherVoiceID) noFiles).
  reflexivity.
Defined.

Lemma scheduled_tool_call_matches_witness :
  (Update thinking (llmResponseMsg auroraVoiceID toolReply None) noFiles).1.2 =
    Some (tea_Sequence [speakCmd auroraVoiceID toolReply; executeToolCmd toolReply]) /\
  toolRegex_MatchString toolReply = true.
Proof.
  split; [vm_compute; reflexivity|].
  apply (scheduled_tool_call_matches thinking
           (llmResponseMsg auroraVoiceID toolReply None) noFiles
           (tea_Sequence [speakCmd auroraVoiceID toolReply; executeToolCmd toolReply])).
  - vm_compute; reflexivity.
  - apply elem_of_cons. right. apply elem_of_cons. left. reflexivity.
Defined.

Lemma typed_text_is_submitted_witness :
  forallb isKeyOfText ["h"; "i"] = true /\
  input start ++ typedText ["h"; "i"] <> EmptyString /\
  let entry := {| role := "user"; content := "hi" |} in
  let '(m', cmds, fs') := deliver start (map KeyMsg ["h"; "i"] ++ [KeyMsg "enter"]) noFiles in
  input m' = EmptyString /\
  llmHistory m' = (llmHistory start ++ [entry])%list /\
  messages m' = (messages start ++ [(Render userStyle "User Directive: " ++ "hi")%string])%list /\
  systemState m' = Thinking /\
  currentTurn m' = currentTurn start /\
  cmds = [Run (getLLMResponseCmd (currentTurn start) (llmHistory start ++ [entry]))] /\
  fs' = saveMemory start noFiles.
Proof.
  split; [reflexivity|]. split; [discriminate|].
  apply (typed_text_is_submitted start ["h"; "i"] noFiles); [reflexivity|discriminate].
Defined.

Lemma failed_generation_stalls_witness :
  (forall text,
      ollama offline (prompt (currentTurn thinking) (llmHistory thinking)) <>
      OllamaBody None (Some text)) /\
  (Update thinking
     (getLLMResponseCmd_run offline (currentTurn thinking) (llmHistory thinking))
     noFiles).1.2 = None.
Proof.
  assert (forall text,
      ollama offline (prompt (currentTurn thinking) (llmHistory thinking)) <>
      OllamaBody None (Some text)) as Hdown by (intros text; discriminate).
  split; [exact Hdown|].
  pose proof (failed_generation_stalls offline thinking noFiles Hdown) as Hstall.
  cbv zeta in Hstall.
  destruct (Update thinking _ noFiles) as [[m' cmd] fs'].
  exact (proj1 (proj2 Hstall)).
Defined.

Lemma toolRegex_match_shape_witness :
  toolRegex_FindStringSubmatch toolReply =
    ["[TOOL:SEARCH:quantum foam]"; "SEARCH"; "quantum foam"] /\
  (exists before after, toolReply = before ++ "[TOOL:SEARCH:quantum foam]" ++ after) /\
  allBytes isWord "SEARCH" = true.
Proof.
  assert (toolRegex_FindStringSubmatch toolReply =
            ["[TOOL:SEARCH:quantum foam]"; "SEARCH"; "quantum foam"]) as Hfind
    by (vm_compute; reflexivity).
  split; [exact Hfind|].
  destruct (toolRegex_match_shape toolReply _ _ _ Hfind) as (_ & Hpiece & _ & Hword & _).
  split; [exact Hpiece|exact Hword].
Defined.

Lemma file_tools_touch_one_file_witness :
  "WRITEFILE" <> "EXECUTE" /\
  readOnly (dispatch offline "WRITEFILE" "notes.txt,hello" noFiles).2 = readOnly noFiles.
Proof.
  split; [discriminate|].
  apply (file_tools_touch_one_file offline "WRITEFILE" "notes.txt,hello" noFiles).
  discriminate.
Defined.

Lemma last_write_wins_witness :
  Contains "notes.txt" "," = false /\
  TrimSpace "notes.txt" = "notes.txt" /\
  (let fs1 := (dispatch offline "WRITEFILE" ("notes.txt" ++ "," ++ "draft") noFiles).2 in
   let fs2 := (dispatch offline "WRITEFILE" ("notes.txt" ++ "," ++ "final") fs1).2 in
   dispatch offline "READFILE" "notes.txt" fs2 =
     (Spec.resolveEscapedNewlines "final", None, fs2) /\
   fs2 = (dispatch offline "WRITEFILE" ("notes.txt" ++ "," ++ "final") noFiles).2).
Proof.
  split; [vm_compute; reflexivity|]. split; [vm_compute; reflexivity|].
  apply (last_write_wins offline "notes.txt" "draft" "final" noFiles).
  - vm_compute; reflexivity.
  - vm_compute; reflexivity.
  - discriminate.
  - apply not_elem_of_empty.
Defined.

Lemma content_without_escape_is_verbatim_witness :
  Contains "hello, world" (String backslash "n") = false /\
  files (dispatch offline "WRITEFILE" ("notes.txt" ++ "," ++ "hello, world") noFiles).2
    !! "notes.txt" = Some "hello, world".
Proof.
  split; [vm_compute; reflexivity|].
  apply (content_without_escape_is_verbatim offline "notes.txt" "hello, world" noFiles).
  - vm_compute; reflexivity.
  - vm_compute; reflexivity.
  - discriminate.
  - apply not_elem_of_empty.
  - vm_compute; reflexivity.
Defined.

Lemma blank_command_runs_nothing_witness :
  spaceOnly_from 0 "  " = true /\
  dispatch offline "EXECUTE" "  " noFiles = ("Error: Empty command.", None, noFiles).
Proof.
  split; [reflexivity|].
  apply (blank_command_runs_nothing offline "  " noFiles). reflexivity.
Defined.


Lemma blank_answer_is_an_empty_turn_witness :
  ollama blankAnswer (prompt (currentTurn thinking) (llmHistory thinking)) =
    OllamaBody None (Some "   ") /\
  spaceOnly_from 0 "   " = true /\
  getLLMResponseCmd_run blankAnswer (currentTurn thinking) (llmHistory thinking) =
    llmResponseMsg (currentTurn thinking) EmptyString None.
Proof.
  split; [reflexivity|]. split; [reflexivity|].
  exact (proj1 (blank_answer_is_an_empty_turn blankAnswer thinking noFiles "   "
                  eq_refl eq_refl)).
Defined.

(** The model the program starts with cannot be rendered. *)
Lemma View_panics_below_twelve_lines_witness :
  (0 <= height start < 2 ^ 62)%Z /\
  View start = None.
Proof.
  assert (0 <= height start < 2 ^ 62)%Z as Hheight by (vm_compute; split; [discriminate|reflexivity]).
  split; [exact Hheight|].
  apply (View_panics_below_twelve_lines start Hheight).
  - vm_compute; reflexivity.
  - vm_compute; reflexivity.
  - vm_compute; reflexivity.
Defined.

Lemma conversation_panel_shows_last_lines_witness :
  (12 <= height sized < 2 ^ 62)%Z /\
  exists shown,
    window (messages sized) (convoViewHeight sized) = Some shown /\
    shown `suffix_of` panelLines (messages sized) /\
    length shown = Nat.min (length (panelLines (messages sized))) (Z.to_nat (height sized - 12)).
Proof.
  assert (12 <= height sized < 2 ^ 62)%Z as Hheight by (vm_compute; split; [discriminate|reflexivity]).
  split; [exact Hheight|].
  apply (conversation_panel_shows_last_lines sized Hheight).
  vm_compute; reflexivity.
Defined.

End MoreChecks.
